(** * unrolled/render: template compilation, layouts and HTML rendering

    A shallow embedding of the renderer ([New], [compileTemplates], [HTML],
    [execute], [addYield], [prepareHTMLOptions]), of the helper bundle of
    [helpers.go] and of [HTML.Render] of [engine.go], together with the part
    of the Go libraries they call: [strings.Index/Split/Join],
    [filepath.ToSlash], a fragment of [html/template] and the
    [http.ResponseWriter] operations.

    Go strings are byte sequences: they are [string]s here.  A panic is an
    explicit result next to the state it leaves behind. *)

From Stdlib Require Import ZArith Ascii String List Lia.
From stdpp Require Import base option gmap strings list fin_maps.

Local Open Scope string_scope.
Local Open Scope Z_scope.

(** ** Package [strings] and [path/filepath] *)

Module GoStrings.

(** [strings.Index(s, substr)]: byte offset of the first occurrence of
    [substr] in [s], or -1. *)
Fixpoint IndexFrom (substr s : string) (i : Z) : Z :=
  match s with
  | EmptyString => if String.prefix substr EmptyString then i else -1
  | String _ s' => if String.prefix substr s then i else IndexFrom substr s' (i + 1)
  end.

Definition Index (s substr : string) : Z := IndexFrom substr s 0.

(** Adds a byte in front of the first field of a split in progress. *)
Definition consHead (c : ascii) (fields : list string) : list string :=
  match fields with
  | [] => [String c EmptyString]
  | f :: fs => String c f :: fs
  end.

(** [strings.Split(s, sep)] for a non-empty [sep]: the fields between the
    non-overlapping occurrences of [sep], scanning from the left.  [skip]
    counts the bytes of a matched separator still to be passed over. *)
Fixpoint SplitFrom (sep : string) (skip : nat) (s : string) : list string :=
  match s with
  | EmptyString => [EmptyString]
  | String c s' =>
      match skip with
      | S k => SplitFrom sep k s'
      | O =>
          if String.prefix sep s
          then EmptyString :: SplitFrom sep (String.length sep - 1) s'
          else consHead c (SplitFrom sep 0 s')
      end
  end.

Definition Split (s sep : string) : list string := SplitFrom sep 0 s.

(** [strings.Join(elems, sep)]. *)
Fixpoint Join (elems : list string) (sep : string) : string :=
  match elems with
  | [] => EmptyString
  | [e] => e
  | e :: rest => e +:+ sep +:+ Join rest sep
  end.

(** [strings.ReplaceAll(s, string(old), string(new))] for single bytes. *)
Fixpoint ReplaceByte (old new : ascii) (s : string) : string :=
  match s with
  | EmptyString => EmptyString
  | String c s' =>
      String (if Ascii.eqb c old then new else c) (ReplaceByte old new s')
  end.

(** [filepath.ToSlash(path)] on a platform whose [os.PathSeparator] is
    [Separator]. *)
Definition ToSlash (Separator : ascii) (path : string) : string :=
  if Ascii.eqb Separator "/" then path else ReplaceByte Separator "/" path.

(** [s[lo:hi]] for in-range bounds. *)
Definition slice (s : string) (lo hi : nat) : string := substring lo (hi - lo) s.

End GoStrings.

(** ** The fragment of [html/template] the renderer relies on

    A template set is a namespace of named units that share one function
    table and one pair of delimiters.  The fragment covers literal text, the
    action [{{.}}] and calls of niladic functions [{{f}}], evaluated in
    element-content context; bindings are Go [string]s or [template.HTML]
    values.  Pipelines, control structures, Go's predeclared template
    functions and other escaping contexts lie outside it: the parser of this
    model rejects such actions. *)

Module Tmpl.
Import GoStrings.

(** A binding or a function result: a Go [string] or a [template.HTML]. *)
Inductive value : Type :=
| VString (s : string)
| VHTML (s : string).

Inductive error : Type :=
| Errorf (msg : string)
| ErrUndefined (name : string)
| ErrIncomplete (name : string)
| ErrParse (name msg : string)
| ErrNotDefined (name fn : string)
| ErrCall (name fn : string) (cause : error).

(** The functions a table can hold: a niladic Go function with fixed
    results [(v, err)], and the closure over the renderer that runs
    [r.execute(name, binding)] and returns its buffer as
    [template.HTML]. *)
Inductive func : Type :=
| FnReturn (v : value) (err : option error)
| FnExecute (name : string) (binding : value).

Abbreviation FuncMap := (gmap string func).

Inductive node : Type :=
| NText (s : string)
| NDot
| NCall (fn : string).

Abbreviation tree := (list node).

(** [tmpls] maps a name to [None] while the unit is created but not yet
    parsed (an incomplete template) and to its tree afterwards. *)
Record Template : Type := mkTemplate {
  Name : string;
  leftDelim : string;
  rightDelim : string;
  funcs : FuncMap;
  tmpls : gmap string (option tree)
}.

Definition dquote : string := String (ascii_of_nat 34) EmptyString.
Definition quoted (s : string) : string := dquote +:+ s +:+ dquote.

(** [err.Error()]; Go adds a line and column after the template name of
    a parse or execution error, which carry no information here. *)
Fixpoint Error (e : error) : string :=
  match e with
  | Errorf msg => msg
  | ErrUndefined n => "html/template: " +:+ quoted n +:+ " is undefined"
  | ErrIncomplete n => "html/template: " +:+ quoted n +:+ " is an incomplete template"
  | ErrParse n msg => "template: " +:+ n +:+ ": " +:+ msg
  | ErrNotDefined n fn =>
      "template: " +:+ n +:+ ": executing " +:+ quoted n +:+ " at <" +:+ fn
      +:+ ">: " +:+ quoted fn +:+ " is not a defined function"
  | ErrCall n fn cause =>
      "template: " +:+ n +:+ ": executing " +:+ quoted n +:+ " at <" +:+ fn
      +:+ ">: error calling " +:+ fn +:+ ": " +:+ Error cause
  end.

(** [template.New(name)]: a fresh namespace holding the root itself. *)
Definition New (name : string) : Template :=
  mkTemplate name EmptyString EmptyString ∅ {[ name := None ]}.

(** [t.Delims(left, right)]. *)
Definition Delims (left right : string) (t : Template) : Template :=
  mkTemplate (Name t) left right (funcs t) (tmpls t).

(** [t.New(name)]: a new, still unparsed unit associated with [t]; a unit
    of that name already in the namespace is replaced. *)
Definition Associate (name : string) (t : Template) : Template :=
  mkTemplate (Name t) (leftDelim t) (rightDelim t) (funcs t)
             (<[ name := None ]> (tmpls t)).

(** [t.Funcs(funcMap)]: the entries of [funcMap] are added to the shared
    table and override entries of the same name. *)
Definition Funcs (funcMap : FuncMap) (t : Template) : Template :=
  mkTemplate (Name t) (leftDelim t) (rightDelim t) (funcMap ∪ funcs t) (tmpls t).

(** [t.Lookup(name)]: is a unit of that name in the namespace? *)
Definition Lookup (t : Template) (name : string) : option (option tree) :=
  tmpls t !! name.

(** *** Lexing and parsing *)

Inductive token : Type :=
| TText (s : string)
| TAction (s : string)
| TUnclosed (s : string).

Definition pushByte (c : ascii) (toks : list token) : list token :=
  match toks with
  | TText s :: r => TText (String c s) :: r
  | TAction s :: r => TAction (String c s) :: r
  | TUnclosed s :: r => TUnclosed (String c s) :: r
  | [] => []
  end.

(** One pass over the input; the head of the result is the token being
    read, [skip] the bytes of a matched delimiter still to pass over. *)
Fixpoint lex (left right : string) (inAction : bool) (skip : nat) (s : string)
  : list token :=
  match s with
  | EmptyString => if inAction then [TUnclosed EmptyString] else [TText EmptyString]
  | String c s' =>
      match skip with
      | S k => lex left right inAction k s'
      | O =>
          if inAction then
            if String.prefix right s
            then TAction EmptyString :: lex left right false (String.length right - 1) s'
            else pushByte c (lex left right true 0 s')
          else
            if String.prefix left s
            then TText EmptyString :: lex left right true (String.length left - 1) s'
            else pushByte c (lex left right false 0 s')
      end
  end.

Definition isSpace (c : ascii) : bool :=
  (Ascii.eqb c " " || Ascii.eqb c (ascii_of_nat 9)
   || Ascii.eqb c (ascii_of_nat 10) || Ascii.eqb c (ascii_of_nat 13))%bool.

Fixpoint trimLeft (s : string) : string :=
  match s with
  | String c s' => if isSpace c then trimLeft s' else s
  | EmptyString => EmptyString
  end.

Fixpoint trimRight (s : string) : string :=
  match s with
  | String c s' =>
      match trimRight s' with
      | EmptyString => if isSpace c then EmptyString else String c EmptyString
      | r => String c r
      end
  | EmptyString => EmptyString
  end.

Definition isLetter (c : ascii) : bool :=
  let n := nat_of_ascii c in
  ((65 <=? n)%nat && (n <=? 90)%nat || (97 <=? n)%nat && (n <=? 122)%nat
   || (n =? 95)%nat)%bool.

Definition isAlnum (c : ascii) : bool :=
  let n := nat_of_ascii c in
  (isLetter c || (48 <=? n)%nat && (n <=? 57)%nat)%bool.

Fixpoint allBytes (p : ascii -> bool) (s : string) : bool :=
  match s with
  | EmptyString => true
  | String c s' => (p c && allBytes p s')%bool
  end.

Definition keywords : list string :=
  ["block"; "break"; "continue"; "define"; "else"; "end"; "if"; "range";
   "nil"; "template"; "with"; "true"; "false"].

Definition isIdentifier (s : string) : bool :=
  match s with
  | EmptyString => false
  | String c s' =>
      (isLetter c && allBytes isAlnum s'
       && negb (existsb (String.eqb s) keywords))%bool
  end.

Definition parseAction (fm : FuncMap) (name : string) (a : string) : node + error :=
  let a := trimRight (trimLeft a) in
  if String.eqb a "." then inl NDot
  else if isIdentifier a then
    match fm !! a with
    | Some _ => inl (NCall a)
    | None => inr (ErrParse name ("function " +:+ quoted a +:+ " not defined"))
    end
  else inr (ErrParse name ("unexpected " +:+ quoted a +:+ " in command")).

Fixpoint parseTokens (fm : FuncMap) (name : string) (toks : list token)
  : tree + error :=
  match toks with
  | [] => inl []
  | TText s :: r =>
      match parseTokens fm name r with
      | inl ns => inl (if String.eqb s EmptyString then ns else NText s :: ns)
      | inr e => inr e
      end
  | TAction a :: r =>
      match parseAction fm name a with
      | inl n =>
          match parseTokens fm name r with
          | inl ns => inl (n :: ns)
          | inr e => inr e
          end
      | inr e => inr e
      end
  | TUnclosed _ :: _ => inr (ErrParse name "unclosed action")
  end.

Definition orDefault (d s : string) : string :=
  if String.eqb s EmptyString then d else s.

(** [tmpl.Parse(text)] for the unit [name] of the set [t]: function names
    are resolved against the shared table at parse time.  The texts covered
    are those of the fragment (text, [{{.}}] and calls of a function; a text
    that defines further units with [define] or [block] is outside it), with
    content, under a name other than the root's own: the library keeps an
    earlier tree of the name when the new text holds white space only, and a
    unit of the root's name takes the root's place. *)
Definition Parse (name : string) (text : string) (t : Template)
  : Template + error :=
  let toks := lex (orDefault "{{" (leftDelim t)) (orDefault "}}" (rightDelim t))
                  false 0 text in
  match parseTokens (funcs t) name toks with
  | inl tr =>
      inl (mkTemplate (Name t) (leftDelim t) (rightDelim t) (funcs t)
                      (<[ name := Some tr ]> (tmpls t)))
  | inr e => inr e
  end.

(** *** Execution *)

(** The replacement table of the HTML escaper. *)
Definition escapeByte (c : ascii) : string :=
  let n := nat_of_ascii c in
  if (n =? 0)%nat then
    String (ascii_of_nat 239) (String (ascii_of_nat 191)
      (String (ascii_of_nat 189) EmptyString))
  else if (n =? 34)%nat then "&#34;"
  else if (n =? 38)%nat then "&amp;"
  else if (n =? 39)%nat then "&#39;"
  else if (n =? 43)%nat then "&#43;"
  else if (n =? 60)%nat then "&lt;"
  else if (n =? 62)%nat then "&gt;"
  else String c EmptyString.

Fixpoint htmlEscape (s : string) : string :=
  match s with
  | EmptyString => EmptyString
  | String c s' => escapeByte c +:+ htmlEscape s'
  end.

(** What an action prints for a value: strings are escaped,
    [template.HTML] is trusted. *)
Definition printValue (v : value) : string :=
  match v with
  | VString s => htmlEscape s
  | VHTML s => s
  end.

(** Runs the nodes of the unit [name] in order, appending to [buf]; the
    bytes written before a failing action stay in the buffer. *)
Fixpoint execNodes (call : func -> option (value * option error))
         (fm : FuncMap) (name : string) (data : value) (ns : tree)
         (buf : string) : option (string * option error) :=
  match ns with
  | [] => Some (buf, None)
  | NText s :: r => execNodes call fm name data r (buf +:+ s)
  | NDot :: r => execNodes call fm name data r (buf +:+ printValue data)
  | NCall fn :: r =>
      match fm !! fn with
      | None => Some (buf, Some (ErrNotDefined name fn))
      | Some f =>
          match call f with
          | None => None
          | Some (_, Some cause) => Some (buf, Some (ErrCall name fn cause))
          | Some (v, None) => execNodes call fm name data r (buf +:+ printValue v)
          end
      end
  end.

(** A call of a function of the table; [exec] runs a unit of the set. *)
Definition callFunc (exec : string -> value -> option (string * option error))
           (f : func) : option (value * option error) :=
  match f with
  | FnReturn v err => Some (v, err)
  | FnExecute n b =>
      match exec n b with
      | Some (out, err) => Some (VHTML out, err)
      | None => None
      end
  end.

(** [t.ExecuteTemplate(buf, name, data)] into a fresh buffer.  A function
    of the table may execute a unit of the set again, so the nesting depth
    is bounded by [fuel]; [None] stands for a run that exceeds it. *)
Fixpoint ExecuteTemplate (fuel : nat) (t : Template) (name : string) (data : value)
  : option (string * option error) :=
  match fuel with
  | O => None
  | S k =>
      match tmpls t !! name with
      | None => Some (EmptyString, Some (ErrUndefined name))
      | Some None => Some (EmptyString, Some (ErrIncomplete name))
      | Some (Some tr) =>
          execNodes (callFunc (ExecuteTemplate k t)) (funcs t) name data tr EmptyString
      end
  end.

End Tmpl.

(** ** The [http.ResponseWriter] operations used by the renderer *)

Module Http.

Record ResponseWriter : Type := mkResponse {
  header : gmap string string;
  code : option Z;
  body : string
}.

Definition StatusInternalServerError : Z := 500.
Definition StatusOK : Z := 200.

(** [httptest.NewRecorder()]: nothing written yet. *)
Definition NewRecorder : ResponseWriter := mkResponse ∅ None EmptyString.

(** [w.Header().Set(key, value)]. *)
Definition HeaderSet (key value : string) (w : ResponseWriter) : ResponseWriter :=
  mkResponse (<[ key := value ]> (header w)) (code w) (body w).

(** [w.WriteHeader(status)] for a status of a final response, 200 to 999:
    the first status written stays.  (The library panics on a status
    outside 100 to 999 when none was written yet, and takes a status from 100
    to 199 for informational.) *)
Definition WriteHeader (status : Z) (w : ResponseWriter) : ResponseWriter :=
  match code w with
  | Some _ => w
  | None => mkResponse (header w) (Some status) (body w)
  end.

(** [w.Write(b)]: an implicit [WriteHeader(200)] when none was sent. *)
Definition Write (b : string) (w : ResponseWriter) : ResponseWriter :=
  let w := WriteHeader StatusOK w in
  mkResponse (header w) (code w) (body w +:+ b).

Definition newline : string := String (ascii_of_nat 10) EmptyString.

(** [http.Error(w, msg, code)]: plain-text headers, the status, and the
    message followed by a newline. *)
Definition Error (w : ResponseWriter) (msg : string) (status : Z) : ResponseWriter :=
  Write (msg +:+ newline)
    (WriteHeader status
       (HeaderSet "X-Content-Type-Options" "nosniff"
          (HeaderSet "Content-Type" "text/plain; charset=utf-8" w))).

End Http.

(** ** [helpers.go] *)

Module Helpers.
Import Tmpl.

(** Included helper functions for use when rendering HTML. *)
Definition helperFuncs : FuncMap :=
  <[ "yield" := FnReturn (VString EmptyString)
                  (Some (Errorf "yield called with no layout defined")) ]>
  (<[ "partial" := FnReturn (VString EmptyString)
                     (Some (Errorf "block called with no layout defined")) ]>
  (<[ "current" := FnReturn (VString EmptyString) None ]> ∅)).

End Helpers.

(** ** [engine.go]: the built-in HTML renderer *)

Module Engine.
Import Tmpl Http.

Record Head : Type := mkHead {
  ContentType : string;
  Status : Z
}.

(** [Templates] is the set the renderer hands over, never nil. *)
Record HTML : Type := mkHTML {
  HTMLHead : Head;
  Name : string;
  Templates : Template
}.

(** [func (h Head) Write(w http.ResponseWriter)]. *)
Definition Write (h : Head) (w : ResponseWriter) : ResponseWriter :=
  WriteHeader (Status h) (HeaderSet "Content-Type" (ContentType h) w).

(** [func (h HTML) Render(w http.ResponseWriter, binding interface{}) error]:
    the response after the call and the error returned. *)
Definition Render (fuel : nat) (h : HTML) (w : ResponseWriter) (binding : value)
  : option (ResponseWriter * option error) :=
  match ExecuteTemplate fuel (Templates h) (Name h) binding with
  | None => None
  | Some (out, Some err) => Some (w, Some err)
  | Some (out, None) => Some (Http.Write out (Write (HTMLHead h) w), None)
  end.

End Engine.

(** ** The renderer *)

Module Render.
Import GoStrings Tmpl Http.

Definition ContentType : string := "Content-Type".
Definition ContentHTML : string := "text/html".
Definition defaultCharset : string := "UTF-8".

(** Delims represents a set of Left and Right delimiters for HTML template
    rendering. *)
Record Delims : Type := mkDelims {
  Left : string;
  Right : string
}.

(** Options is a struct for specifying configuration options for the
    render.Render object. *)
Record Options : Type := mkOptions {
  Directory : string;
  Layout : string;
  Extensions : list string;
  Funcs : list FuncMap;
  OptDelims : Delims;
  Charset : string;
  IndentJSON : bool;
  IndentXML : bool;
  PrefixJSON : string;
  PrefixXML : string;
  HTMLContentType : string;
  IsDevelopment : bool
}.

(** HTMLOptions is a struct for overriding some rendering Options for
    specific HTML call. *)
Record HTMLOptions : Type := mkHTMLOptions {
  HTMLLayout : string
}.

(** [templates] is a pointer: [None] is nil. *)
Record Render : Type := mkRender {
  opt : Options;
  templates : option Template;
  compiledCharset : string
}.

Definition nilDereference : error :=
  Errorf "runtime error: invalid memory address or nil pointer dereference".

(** *** The file tree

    What [filepath.Walk(dir, fn)] hands to [fn], in its lexical order and
    starting with the root itself: the path of each entry, the relative
    path that [filepath.Rel(dir, path)] yields for it (the walker's paths
    lie under [dir], so [Rel] does not fail) and what is behind the path. *)

Inductive content : Type :=
| Dir
| File (data : string)
| Unreadable (why : string).

Record Entry : Type := mkEntry {
  path : string;
  rel : string;
  at_path : content
}.

Abbreviation FileSystem := (string -> list Entry).

(** [ioutil.ReadFile(path)] at an entry: a directory cannot be read. *)
Definition ReadFile (e : Entry) : string + error :=
  match at_path e with
  | File data => inl data
  | Dir => inr (Errorf ("read " +:+ path e +:+ ": is a directory"))
  | Unreadable why => inr (Errorf why)
  end.

(** The extension of a relative path as the walker computes it. *)
Definition ext (rel : string) : string :=
  if negb (Index rel "." =? -1)
  then "." +:+ Join (tail (Split rel ".")) "."
  else EmptyString.

(** [rel[0 : len(rel)-len(ext)]]. *)
Definition name (rel ext : string) : string :=
  slice rel 0 (String.length rel - String.length ext).

Definition setTemplates (t : option Template) (r : Render) : Render :=
  mkRender (opt r) t (compiledCharset r).

Definition prepareOptions (r : Render) : Render :=
  let o := opt r in
  let charset :=
    if (String.length (Charset o) =? 0)%nat then defaultCharset else Charset o in
  let directory :=
    if (String.length (Directory o) =? 0)%nat then "templates" else Directory o in
  let extensions :=
    if (length (Extensions o) =? 0)%nat then [".tmpl"] else Extensions o in
  let htmlContentType :=
    if (String.length (HTMLContentType o) =? 0)%nat
    then ContentHTML else HTMLContentType o in
  mkRender
    (mkOptions directory (Layout o) extensions (Funcs o) (OptDelims o) charset
               (IndentJSON o) (IndentXML o) (PrefixJSON o) (PrefixXML o)
               htmlContentType (IsDevelopment o))
    (templates r)
    ("; charset=" +:+ charset).

Section Package.

(** [os.PathSeparator] of the platform. *)
Variable Separator : ascii.

(** The package-level helper bundle [helperFuncs].  The sources define it
    twice, as the variable next to the renderer ([yield], [current]) and as
    the function of [helpers.go] (with [partial]): the renderer is
    parametric in it. *)
Variable helperFuncs : FuncMap.

(** [tmpl := r.templates.New(...)], the loop over [r.opt.Funcs] and
    [tmpl.Funcs(helperFuncs)]: the set a unit is parsed against. *)
Definition addFuncmaps (o : Options) (tmpl : string) (t : Template) : Template :=
  let t := Associate tmpl t in
  let t := fold_left (fun t funcs => Tmpl.Funcs funcs t) (Funcs o) t in
  Tmpl.Funcs helperFuncs t.

(** The body of [if ext == extension], on the template set
    [r.templates] points to: the set afterwards and the value of a
    panic, if any. *)
Definition compileFile (o : Options) (e : Entry) (ext : string) (t : Template)
  : Template * option error :=
  match ReadFile e with
  | inr err => (t, Some err)
  | inl buf =>
      let tmpl := ToSlash Separator (name (rel e) ext) in
      let t := addFuncmaps o tmpl t in
      match Parse tmpl buf t with
      | inr err => (t, Some err)
      | inl t' => (t', None)
      end
  end.

(** [for _, extension := range r.opt.Extensions]: the first extension
    equal to [ext] compiles the file and breaks the loop. *)
Fixpoint rangeExtensions (o : Options) (e : Entry) (ext : string)
         (extensions : list string) (t : Template)
  : Template * option error :=
  match extensions with
  | [] => (t, None)
  | extension :: rest =>
      if String.eqb ext extension then compileFile o e ext t
      else rangeExtensions o e ext rest t
  end.

(** The function handed to [filepath.Walk]. *)
Definition walkFn (o : Options) (e : Entry) (t : Template)
  : Template * option error :=
  rangeExtensions o e (ext (rel e)) (Extensions o) t.

(** [filepath.Walk]: the entries in order; a panic ends the walk. *)
Fixpoint Walk (o : Options) (entries : list Entry) (t : Template)
  : Template * option error :=
  match entries with
  | [] => (t, None)
  | e :: rest =>
      match walkFn o e t with
      | (t', Some p) => (t', Some p)
      | (t', None) => Walk o rest t'
      end
  end.

(** [func (r *Render) compileTemplates()]: the renderer afterwards and
    the value of the panic that ended it, if any.  [r.templates] is assigned
    the fresh set before the walk, and the walk works on that set in place:
    the renderer holds the set as the walk left it, also after a panic. *)
Definition compileTemplates (fs : FileSystem) (r : Render)
  : Render * option error :=
  let dir := Directory (opt r) in
  let t := Tmpl.New dir in
  let t := Tmpl.Delims (Left (OptDelims (opt r))) (Right (OptDelims (opt r))) t in
  let '(t', p) := Walk (opt r) (fs dir) t in
  (setTemplates (Some t') r, p).

(** [func New(options Options) *Render]: a panic leaves no renderer. *)
Definition New (fs : FileSystem) (options : Options) : Render + error :=
  let r := mkRender options None EmptyString in
  let r := prepareOptions r in
  match compileTemplates fs r with
  | (r', None) => inl r'
  | (_, Some p) => inr p
  end.

(** [func (r *Render) execute(name, binding)]: the new buffer with what
    the execution wrote and the error it returned, or the panic of a nil
    set; [None] when the execution exceeds [fuel]. *)
Definition execute (fuel : nat) (r : Render) (name : string) (binding : value)
  : option (string * option error + error) :=
  match templates r with
  | None => Some (inr nilDereference)
  | Some t =>
      match ExecuteTemplate fuel t name binding with
      | Some res => Some (inl res)
      | None => None
      end
  end.

(** [func (r *Render) addYield(name, binding)]. *)
Definition addYield (r : Render) (name : string) (binding : value)
  : Render + error :=
  let funcs : FuncMap :=
    <[ "yield" := FnExecute name binding ]>
    (<[ "current" := FnReturn (VString name) None ]> ∅) in
  match templates r with
  | None => inr nilDereference
  | Some t => inl (setTemplates (Some (Tmpl.Funcs funcs t)) r)
  end.

(** [func (r *Render) prepareHTMLOptions(htmlOpt []HTMLOptions) HTMLOptions]. *)
Definition prepareHTMLOptions (r : Render) (htmlOpt : list HTMLOptions)
  : HTMLOptions :=
  match htmlOpt with
  | o :: _ => o
  | [] => mkHTMLOptions (Layout (opt r))
  end.

(** The part of [HTML] after the layout is assigned. *)
Definition render (fuel : nat) (r : Render) (w : ResponseWriter) (status : Z)
           (name : string) (binding : value)
  : option (Render * ResponseWriter * option error) :=
  match execute fuel r name binding with
  | None => None
  | Some (inr p) => Some (r, w, Some p)
  | Some (inl (out, Some err)) =>
      Some (r, Http.Error w (Tmpl.Error err) StatusInternalServerError, None)
  | Some (inl (out, None)) =>
      Some (r,
            Write out
              (WriteHeader status
                 (HeaderSet ContentType
                    (HTMLContentType (opt r) +:+ compiledCharset r) w)),
            None)
  end.

(** [func (r *Render) HTML(w, status, name, binding, htmlOpt ...HTMLOptions)]:
    the renderer and the response afterwards and the value of a panic,
    if any; [None] when the execution exceeds [fuel]. *)
Definition HTML (fuel : nat) (fs : FileSystem) (r : Render) (w : ResponseWriter)
           (status : Z) (name : string) (binding : value)
           (htmlOpt : list HTMLOptions)
  : option (Render * ResponseWriter * option error) :=
  let '(r, p) := if IsDevelopment (opt r) then compileTemplates fs r else (r, None) in
  match p with
  | Some p => Some (r, w, Some p)
  | None =>
      let opt := prepareHTMLOptions r htmlOpt in
      if (0 <? String.length (HTMLLayout opt))%nat then
        match addYield r name binding with
        | inr p => Some (r, w, Some p)
        | inl r => render fuel r w status (HTMLLayout opt) binding
        end
      else render fuel r w status name binding
  end.

End Package.

(** Included helper functions for use when rendering html. *)
Definition helperFuncs : FuncMap :=
  <[ "yield" := FnReturn (VString EmptyString)
                  (Some (Errorf "yield called with no layout defined")) ]>
  (<[ "current" := FnReturn (VString EmptyString) None ]> ∅).

End Render.

(** ** The specification's wording, for comparison with the code *)

Module Spec.
Import Tmpl.

(** The extension of a relative path in the specification's words:
    everything from the first [.] of the path on (the specification's own
    example of such an extension is [.tmpl/notbad]); empty without a dot. *)
Fixpoint fromFirstDot (rel : string) : string :=
  match rel with
  | EmptyString => EmptyString
  | String c rel' => if Ascii.eqb c "." then rel else fromFirstDot rel'
  end.

(** The relative path with that extension stripped. *)
Fixpoint beforeFirstDot (rel : string) : string :=
  match rel with
  | EmptyString => EmptyString
  | String c rel' =>
      if Ascii.eqb c "." then EmptyString else String c (beforeFirstDot rel')
  end.

(** Does the byte occur in the string? *)
Fixpoint occurs (c : ascii) (s : string) : bool :=
  match s with
  | EmptyString => false
  | String d s' => (Ascii.eqb d c || occurs c s')%bool
  end.

(** The order of attachment in the specification's words: the built-in
    stand-ins first, the user's bundles in their configured order after
    them. *)
Definition builtinsThenUser (builtins : FuncMap) (user : list FuncMap)
           (t : Template) : Template :=
  fold_left (fun t funcs => Tmpl.Funcs funcs t) user (Tmpl.Funcs builtins t).

(** The function a list of bundles applied in order leaves under a name:
    that of the last bundle defining it. *)
Fixpoint lastDefined (user : list FuncMap) (fn : string) : option func :=
  match user with
  | [] => None
  | funcs :: rest =>
      match lastDefined rest fn with
      | Some f => Some f
      | None => funcs !! fn
      end
  end.

End Spec.

(** ** File trees and options used in the examples *)

Module Fixtures.
Import Tmpl Http Render.

(** A walk of [dir]: the root, then the given entries. *)
Definition walkOf (files : list (string * content)) : FileSystem :=
  fun dir =>
    mkEntry dir "." Dir
    :: map (fun f => mkEntry (dir +:+ "/" +:+ fst f) (fst f) (snd f)) files.

Definition options (dir layout : string) (extensions : list string)
           (user : list FuncMap) (dev : bool) : Options :=
  mkOptions dir layout extensions user (mkDelims EmptyString EmptyString)
            EmptyString false false EmptyString EmptyString EmptyString dev.

(** [testdata/basic]-like tree: a page and a layout. *)
Definition basic : FileSystem :=
  walkOf [("hello.tmpl", File "Hello {{.}}");
          ("layout.tmpl", File "<h1>{{yield}}</h1>")].

(** The page edited on disk. *)
Definition basicEdited : FileSystem :=
  walkOf [("hello.tmpl", File "Goodbye {{.}}");
          ("layout.tmpl", File "<h1>{{yield}}</h1>")].

(** A tree whose second template has an unclosed action. *)
Definition broken : FileSystem :=
  walkOf [("a.tmpl", File "A");
          ("b.tmpl", File "B {{ oops");
          ("c.tmpl", File "C")].

(** The tree of [testdata/template-dir-test]: a directory that bears a
    template extension. *)
Definition templateDirTest : FileSystem :=
  walkOf [("0.tmpl", File "zero");
          ("dedicated.tmpl", Dir);
          ("dedicated.tmpl/notbad.tmpl", File "not bad");
          ("subdir", Dir);
          ("subdir/1.tmpl", File "one")].

(** Pages that use the names of the layout functions. *)
Definition pages : FileSystem :=
  walkOf [("current.tmpl", File "[{{ current }}]");
          ("partial.tmpl", File "{{ partial }}");
          ("yield.tmpl", File "before {{ yield }} after")].

(** A bundle of the user that defines [yield] itself. *)
Definition userYield : FuncMap :=
  {[ "yield" := FnReturn (VHTML "mine") None ]}.

End Fixtures.

(** ** Observations on renderers and finished calls *)

Module View.
Import Tmpl Http Render.

(** The renderer a successful [New] returns; nil templates after a panic. *)
Definition constructed (x : Render.Render + error) : Render.Render :=
  match x with
  | inl r => r
  | inr _ =>
      mkRender (Fixtures.options EmptyString EmptyString [] [] false) None EmptyString
  end.

(** The unit the renderer's current set holds under a name. *)
Definition unit (r : Render.Render) (name : string) : option (option tree) :=
  templates r ≫= fun t => Lookup t name.

(** The function the renderer's current set holds under a name. *)
Definition function (r : Render.Render) (fn : string) : option func :=
  templates r ≫= fun t => funcs t !! fn.

(** The renderer with another default layout. *)
Definition withLayout (layout : string) (r : Render.Render) : Render.Render :=
  let o := opt r in
  mkRender
    (mkOptions (Directory o) layout (Extensions o) (Funcs o) (OptDelims o)
               (Charset o) (IndentJSON o) (IndentXML o) (PrefixJSON o)
               (PrefixXML o) (HTMLContentType o) (IsDevelopment o))
    (templates r) (compiledCharset r).

(** The name [HTML] executes: the resolved layout, or the requested name
    when the resolved layout is empty. *)
Definition target (r : Render.Render) (name : string) (htmlOpt : list HTMLOptions)
  : string :=
  let opt := prepareHTMLOptions r htmlOpt in
  if (0 <? String.length (HTMLLayout opt))%nat then HTMLLayout opt else name.

(** The renderer on which [HTML] runs [execute]: after the recompilation
    of development mode and after [addYield] when a layout is resolved; with
    the panic, if one of the two steps ends in one. *)
Definition staged (Separator : ascii) (helperFuncs : FuncMap) (fs : FileSystem)
           (r : Render.Render) (name : string) (binding : value)
           (htmlOpt : list HTMLOptions) : Render.Render * option error :=
  match
    (if IsDevelopment (opt r)
     then compileTemplates Separator helperFuncs fs r else (r, None))
  with
  | (r0, Some p) => (r0, Some p)
  | (r0, None) =>
      if (0 <? String.length (HTMLLayout (prepareHTMLOptions r0 htmlOpt)))%nat then
        match addYield r0 name binding with
        | inr p => (r0, Some p)
        | inl r1 => (r1, None)
        end
      else (r0, None)
  end.

(** Status, body and panic of a finished call. *)
Definition response (x : option (Render.Render * ResponseWriter * option error))
  : option (option Z * string * option error) :=
  match x with
  | Some (_, w, p) => Some (code w, body w, p)
  | None => None
  end.

(** The renderer a call leaves behind. *)
Definition after (r : Render.Render)
           (x : option (Render.Render * ResponseWriter * option error))
  : Render.Render :=
  match x with
  | Some (r', _, _) => r'
  | None => r
  end.

End View.

(** ** The renderers of the other formats *)

Module Formats.
Import Tmpl Http Render.

Definition ContentBinary : string := "application/octet-stream".
Definition ContentJSON : string := "application/json".
Definition ContentXML : string := "text/xml".

(** [w.Header().Get(key)]: empty when the key is not set. *)
Definition HeaderGet (key : string) (w : ResponseWriter) : string :=
  default EmptyString (header w !! key).

(** How a call of the built-in renderers of [engine.go] ends. *)
Inductive outcome : Type :=
| Returned (err : option error)
| Panicked (p : error).

Record Data : Type := mkData {
  DataHead : Engine.Head
}.

Record JSON : Type := mkJSON {
  JSONHead : Engine.Head;
  JSONIndent : bool;
  JSONPrefix : string
}.

Record XML : Type := mkXML {
  XMLHead : Engine.Head;
  XMLIndent : bool;
  XMLPrefix : string
}.

Section Marshalling.

(** The values handed to the renderers, [json.Marshal],
    [json.MarshalIndent], [xml.Marshal], [xml.MarshalIndent] and the type
    assertion [v.([]byte)] with the run-time error of a failed one. *)
Variable any : Type.
Variable jsonMarshal : any -> string + error.
Variable jsonMarshalIndent : any -> string -> string -> string + error.
Variable xmlMarshal : any -> string + error.
Variable xmlMarshalIndent : any -> string -> string -> string + error.
Variable assertBytes : any -> string + error.

(** [if len(prefix) > 0 { w.Write(prefix) }]. *)
Definition writePrefix (prefix : string) (w : ResponseWriter) : ResponseWriter :=
  if (0 <? String.length prefix)%nat then Write prefix w else w.

(** [func (r *Render) JSON(w, status, v)]. *)
Definition RenderJSON (r : Render.Render) (w : ResponseWriter) (status : Z) (v : any)
  : ResponseWriter :=
  match
    (if IndentJSON (opt r) then jsonMarshalIndent v EmptyString "  " else jsonMarshal v)
  with
  | inr err => Http.Error w (Tmpl.Error err) 500
  | inl result =>
      Write result
        (writePrefix (PrefixJSON (opt r))
           (WriteHeader status
              (HeaderSet ContentType (ContentJSON +:+ compiledCharset r) w)))
  end.

(** [func (r *Render) XML(w, status, v)]. *)
Definition RenderXML (r : Render.Render) (w : ResponseWriter) (status : Z) (v : any)
  : ResponseWriter :=
  match
    (if IndentXML (opt r) then xmlMarshalIndent v EmptyString "  " else xmlMarshal v)
  with
  | inr err => Http.Error w (Tmpl.Error err) 500
  | inl result =>
      Write result
        (writePrefix (PrefixXML (opt r))
           (WriteHeader status
              (HeaderSet ContentType (ContentXML +:+ compiledCharset r) w)))
  end.

(** [func (r *Render) Data(w, status, v []byte)]. *)
Definition RenderData (w : ResponseWriter) (status : Z) (v : string)
  : ResponseWriter :=
  let w :=
    if String.eqb (HeaderGet ContentType w) EmptyString
    then HeaderSet ContentType ContentBinary w else w in
  Write v (WriteHeader status w).

(** [func (d Data) Render(w, v) error]: the head is written before the
    type assertion on [v] is evaluated. *)
Definition DataRender (d : Data) (w : ResponseWriter) (v : any)
  : ResponseWriter * outcome :=
  let c := HeaderGet ContentType w in
  let head :=
    if negb (String.eqb c EmptyString)
    then Engine.mkHead c (Engine.Status (DataHead d)) else DataHead d in
  let w := Engine.Write head w in
  match assertBytes v with
  | inr p => (w, Panicked p)
  | inl b => (Write b w, Returned None)
  end.

(** [func (j JSON) Render(w, v) error]. *)
Definition JSONRender (j : JSON) (w : ResponseWriter) (v : any)
  : ResponseWriter * option error :=
  match
    (if JSONIndent j then jsonMarshalIndent v EmptyString "  " else jsonMarshal v)
  with
  | inr err => (w, Some err)
  | inl result =>
      (Write result (writePrefix (JSONPrefix j) (Engine.Write (JSONHead j) w)), None)
  end.

(** [func (x XML) Render(w, v) error]. *)
Definition XMLRender (x : XML) (w : ResponseWriter) (v : any)
  : ResponseWriter * option error :=
  match
    (if XMLIndent x then xmlMarshalIndent v EmptyString "  " else xmlMarshal v)
  with
  | inr err => (w, Some err)
  | inl result =>
      (Write result (writePrefix (XMLPrefix x) (Engine.Write (XMLHead x) w)), None)
  end.

End Marshalling.

End Formats.

(** ** Predicates on template sets *)

Module Sets.
Import Tmpl Render Spec.

(** Every function a parsed unit of the set calls is in the set's table. *)
Definition callsBound (t : Template) : Prop :=
  forall u tr fn,
    tmpls t !! u = Some (Some tr) -> NCall fn ∈ tr -> is_Some (funcs t !! fn).

(** The set carries the delimiters of the options. *)
Definition delimsOf (o : Options) (t : Template) : Prop :=
  leftDelim t = Left (OptDelims o) /\ rightDelim t = Right (OptDelims o).

(** The tree [Parse] makes of a text under the delimiters and the table of
    a set. *)
Definition treeOf (t : Template) (u text : string) : tree + error :=
  parseTokens (funcs t) u
    (lex (orDefault "{{" (leftDelim t)) (orDefault "}}" (rightDelim t)) false 0 text).

(** A tree with content, one that [parse.IsEmptyTree] does not take for
    empty: it holds an action, or a text with a visible ASCII byte (white
    space alone does not count). *)
Definition visible (c : ascii) : bool :=
  ((32 <? nat_of_ascii c) && (nat_of_ascii c <? 127))%nat.

Fixpoint anyByte (f : ascii -> bool) (s : string) : bool :=
  match s with
  | EmptyString => false
  | String c s' => f c || anyByte f s'
  end.

Definition holdsContent (tr : tree) : bool :=
  existsb (fun n => match n with
                    | NText s => anyByte visible s
                    | NDot | NCall _ => true
                    end) tr.

End Sets.

(** ** Further file trees and values for the examples *)

Module Cases.
Import Tmpl Http Render.

(** A page, a layout, and a page that calls [yield] itself. *)
Definition leaky : FileSystem :=
  Fixtures.walkOf [("hello.tmpl", File "Hello {{.}}");
                   ("layout.tmpl", File "<h1>{{yield}}</h1>");
                   ("other.tmpl", File "other: {{yield}} ({{current}})")].

(** Two files with the same stem. *)
Definition sameStem : FileSystem :=
  Fixtures.walkOf [("a.html", File "from html");
                   ("a.tmpl", File "from tmpl")].

(** No entry with a configured extension. *)
Definition noMatch : FileSystem :=
  Fixtures.walkOf [("readme.md", File "text");
                   ("sub", Dir);
                   ("sub/notes.tmpl.bak", File "{{ broken")].

(** A matched file that cannot be read, after one that can. *)
Definition unreadable : FileSystem :=
  Fixtures.walkOf [("a.tmpl", File "A");
                   ("b.tmpl", Unreadable "open templates/b.tmpl: permission denied");
                   ("c.tmpl", File "C")].

(** Bodies written with brackets as delimiters. *)
Definition bracketed : FileSystem :=
  Fixtures.walkOf [("hello.tmpl", File "{{.}} is [[.]]")].

Definition bracketOptions : Options :=
  mkOptions "templates" EmptyString [] [] (mkDelims "[[" "]]")
            EmptyString false false EmptyString EmptyString EmptyString false.

(** Values for the other formats: bytes, or something that marshals to a
    fixed text, or something that does not marshal. *)
Inductive sample : Type :=
| Bytes (b : string)
| Greeting
| Unsupported.

Definition marshal (v : sample) : string + error :=
  match v with
  | Bytes b => inl b
  | Greeting => inl "{hello}"
  | Unsupported => inr (Errorf "unsupported value")
  end.

Definition marshalIndent (v : sample) (prefix indent : string) : string + error :=
  match v with
  | Bytes b => inl b
  | Greeting => inl ("{" +:+ indent +:+ "hello}")
  | Unsupported => inr (Errorf "unsupported value")
  end.

Definition asBytes (v : sample) : string + error :=
  match v with
  | Bytes b => inl b
  | _ => inr (Errorf "interface conversion: interface {} is not []uint8")
  end.

End Cases.

(** * Properties *)

Import GoStrings Tmpl Http Render Spec.

(** Settles a decidable closed proposition by evaluating its decision. *)
Ltac by_evaluation := apply (bool_decide_unpack _); vm_compute; exact I.

(** ** Strings *)

Lemma prefix_dot (c : ascii) (s : string) :
  String.prefix "." (String c s) = Ascii.eqb c ".".
Proof.
  change (String.prefix "." (String c s))
    with (if ascii_dec "." c then String.prefix EmptyString s else false).
  destruct (ascii_dec "." c) as [<- | Hne].
  - destruct s; reflexivity.
  - symmetry. apply Ascii.eqb_neq. congruence.
Qed.

Lemma append_cons (c : ascii) (a b : string) : String c a +:+ b = String c (a +:+ b).
Proof. reflexivity. Qed.

Lemma append_empty_l (s : string) : EmptyString +:+ s = s.
Proof. reflexivity. Qed.

Lemma append_empty_r (s : string) : s +:+ EmptyString = s.
Proof.
  induction s as [| c s IH]; [reflexivity |].
  rewrite append_cons. now f_equal.
Qed.

Lemma length_append (a b : string) :
  String.length (a +:+ b) = (String.length a + String.length b)%nat.
Proof.
  induction a as [| x a IH]; [reflexivity |].
  rewrite append_cons. cbn [String.length Nat.add]. now f_equal.
Qed.

Lemma substring_prefix (a b : string) : substring 0 (String.length a) (a +:+ b) = a.
Proof.
  induction a as [| x a IH].
  - rewrite append_empty_l. destruct b; reflexivity.
  - rewrite append_cons. cbn [String.length substring]. now f_equal.
Qed.

Lemma IndexFrom_dot (s : string) (i : Z) :
  0 <= i ->
  if occurs "." s then 0 <= IndexFrom "." s i else IndexFrom "." s i = -1.
Proof.
  revert i. induction s as [| c s IH]; intros i Hi.
  - reflexivity.
  - cbn [occurs IndexFrom]. rewrite prefix_dot.
    destruct (Ascii.eqb c ".") eqn:Hc; cbn [orb].
    + exact Hi.
    + apply IH. lia.
Qed.

Lemma Index_dot (rel : string) : negb (Index rel "." =? -1) = occurs "." rel.
Proof.
  unfold Index. pose proof (IndexFrom_dot rel 0 ltac:(lia)) as H.
  destruct (occurs "." rel).
  - destruct (Z.eqb_spec (IndexFrom "." rel 0) (-1)); [lia | reflexivity].
  - rewrite H. reflexivity.
Qed.

Lemma Split_dot_cons (c : ascii) (s : string) :
  Split (String c s) "." =
  if Ascii.eqb c "." then EmptyString :: Split s "." else consHead c (Split s ".").
Proof. unfold Split. cbn [SplitFrom]. rewrite prefix_dot. reflexivity. Qed.

Lemma Split_dot_nonempty (s : string) : Split s "." <> [].
Proof.
  destruct s as [| c s]; [discriminate |].
  rewrite Split_dot_cons. destruct (Ascii.eqb c "."); [discriminate |].
  destruct (Split s "."); discriminate.
Qed.

Lemma Join_cons (e f : string) (fs : list string) (sep : string) :
  Join (e :: f :: fs) sep = e +:+ sep +:+ Join (f :: fs) sep.
Proof. reflexivity. Qed.

(** Joining what [Split] cut at the dots gives the string back. *)
Lemma Join_Split_dot (s : string) : Join (Split s ".") "." = s.
Proof.
  induction s as [| c s IH]; [reflexivity |].
  rewrite Split_dot_cons. pose proof (Split_dot_nonempty s) as Hne.
  destruct (Split s ".") as [| f fs] eqn:Hs; [congruence |].
  destruct (Ascii.eqb_spec c ".") as [-> | Hc].
  - rewrite Join_cons, IH. reflexivity.
  - cbn [consHead]. destruct fs as [| g gs].
    + cbn [Join] in *. now rewrite IH.
    + rewrite Join_cons in *. rewrite append_cons. now rewrite IH.
Qed.

Lemma tail_Split_dot (s : string) :
  occurs "." s = true ->
  "." +:+ Join (tail (Split s ".")) "." = fromFirstDot s.
Proof.
  induction s as [| c s IH]; [discriminate |].
  cbn [occurs fromFirstDot]. rewrite Split_dot_cons.
  destruct (Ascii.eqb_spec c ".") as [-> | Hc]; cbn [orb]; intros Hd.
  - cbn [tail]. rewrite Join_Split_dot. reflexivity.
  - rewrite <- (IH Hd). pose proof (Split_dot_nonempty s) as Hne.
    destruct (Split s ".") as [| f fs]; [congruence | reflexivity].
Qed.

Lemma fromFirstDot_no_dot (s : string) :
  occurs "." s = false -> fromFirstDot s = EmptyString.
Proof.
  induction s as [| c s IH]; [reflexivity |].
  cbn [occurs fromFirstDot]. destruct (Ascii.eqb c "."); [discriminate | exact IH].
Qed.

(** The walker's extension is the part of the path from its first dot. *)
Lemma ext_fromFirstDot (rel : string) : ext rel = fromFirstDot rel.
Proof.
  unfold ext. rewrite Index_dot. destruct (occurs "." rel) eqn:Hd.
  - now apply tail_Split_dot.
  - symmetry. now apply fromFirstDot_no_dot.
Qed.

Lemma before_from_FirstDot (s : string) : beforeFirstDot s +:+ fromFirstDot s = s.
Proof.
  induction s as [| c s IH]; [reflexivity |].
  cbn [beforeFirstDot fromFirstDot]. destruct (Ascii.eqb c "."); [reflexivity |].
  rewrite append_cons. now rewrite IH.
Qed.

Lemma beforeFirstDot_no_dot (s : string) : occurs "." (beforeFirstDot s) = false.
Proof.
  induction s as [| c s IH]; [reflexivity |].
  cbn [beforeFirstDot]. destruct (Ascii.eqb c ".") eqn:Hc; [reflexivity |].
  cbn [occurs]. now rewrite Hc, IH.
Qed.

(** The unit's name before [ToSlash] is the part of the path before its
    first dot. *)
Lemma name_beforeFirstDot (rel : string) :
  name rel (ext rel) = beforeFirstDot rel.
Proof.
  unfold name, slice. rewrite ext_fromFirstDot.
  rewrite <- (before_from_FirstDot rel) at 1 3.
  rewrite length_append.
  replace (_ + _ - _ - 0)%nat with (String.length (beforeFirstDot rel)) by lia.
  apply substring_prefix.
Qed.

Lemma ReplaceByte_occurs (old new : ascii) (s : string) :
  old <> new -> occurs old (ReplaceByte old new s) = false.
Proof.
  intros Hne. induction s as [| c s IH]; [reflexivity |].
  cbn [ReplaceByte occurs]. rewrite IH.
  destruct (Ascii.eqb_spec c old) as [-> | Hc].
  - destruct (Ascii.eqb_spec new old); [congruence | reflexivity].
  - destruct (Ascii.eqb_spec c old); [congruence | reflexivity].
Qed.

(** After [ToSlash] no separator of the platform other than the forward
    slash is left. *)
Lemma ToSlash_no_separator (Separator : ascii) (p : string) :
  Separator <> "/"%char -> occurs Separator (ToSlash Separator p) = false.
Proof.
  intros Hne. unfold ToSlash.
  destruct (Ascii.eqb_spec Separator "/"); [congruence |].
  now apply ReplaceByte_occurs.
Qed.

(** ** The function table and the namespace under the set operations *)

Lemma lookup_Funcs (funcMap : FuncMap) (t : Template) (fn : string) :
  funcs (Tmpl.Funcs funcMap t) !! fn =
  match funcMap !! fn with
  | Some f => Some f
  | None => funcs t !! fn
  end.
Proof.
  cbn [Tmpl.Funcs funcs]. destruct (funcMap !! fn) as [f |] eqn:Hf.
  - now apply lookup_union_Some_l.
  - now apply lookup_union_r.
Qed.

Lemma tmpls_fold_Funcs (user : list FuncMap) (t : Template) :
  tmpls (fold_left (fun t funcs => Tmpl.Funcs funcs t) user t) = tmpls t.
Proof.
  revert t. induction user as [| f user IH]; intros t; [reflexivity |].
  cbn [fold_left]. now rewrite IH.
Qed.

(** Bundles applied in order: the last one defining a name wins, the table
    before them answers for the names none defines. *)
Lemma lookup_fold_Funcs (user : list FuncMap) (t : Template) (fn : string) :
  funcs (fold_left (fun t funcs => Tmpl.Funcs funcs t) user t) !! fn =
  match lastDefined user fn with
  | Some f => Some f
  | None => funcs t !! fn
  end.
Proof.
  revert t. induction user as [| f user IH]; intros t; [reflexivity |].
  cbn [fold_left lastDefined]. rewrite IH, lookup_Funcs.
  destruct (lastDefined user fn); reflexivity.
Qed.

Lemma Parse_inl (u text : string) (t t' : Template) :
  Parse u text t = inl t' ->
  funcs t' = funcs t /\
  (exists tr, tmpls t' = <[ u := Some tr ]> (tmpls t)) /\
  leftDelim t' = leftDelim t /\ rightDelim t' = rightDelim t /\
  Tmpl.Name t' = Tmpl.Name t.
Proof.
  unfold Parse. destruct (parseTokens _ _ _) as [tr | err]; [| discriminate].
  intros [= <-]. cbn. eauto 6.
Qed.

(** ** The walk function *)

Section Walker.

Variable Separator : ascii.
Variable helperFuncs : FuncMap.

Local Abbreviation addFuncmaps := (addFuncmaps helperFuncs).
Local Abbreviation compileFile := (compileFile Separator helperFuncs).
Local Abbreviation rangeExtensions := (rangeExtensions Separator helperFuncs).
Local Abbreviation walkFn := (walkFn Separator helperFuncs).
Local Abbreviation Walk := (Walk Separator helperFuncs).
Local Abbreviation compileTemplates := (compileTemplates Separator helperFuncs).

Lemma rangeExtensions_skip o e x (extensions : list string) t :
  x ∉ extensions -> rangeExtensions o e x extensions t = (t, None).
Proof.
  induction extensions as [| y ys IH]; intros Hx; [reflexivity |].
  cbn [Render.rangeExtensions]. apply not_elem_of_cons in Hx as [Hxy Hys].
  destruct (String.eqb_spec x y); [congruence |]. now apply IH.
Qed.

Lemma rangeExtensions_match o e x (extensions : list string) t :
  x ∈ extensions -> rangeExtensions o e x extensions t = compileFile o e x t.
Proof.
  induction extensions as [| y ys IH]; intros Hx.
  - now apply elem_of_nil in Hx.
  - cbn [Render.rangeExtensions]. destruct (String.eqb_spec x y); [reflexivity |].
    apply elem_of_cons in Hx as [Hxy | Hys]; [congruence |]. now apply IH.
Qed.

(** The table a unit is parsed against: the helper bundle first, then the
    last of the user's bundles defining the name, then what was there. *)
Lemma lookup_addFuncmaps o u t fn :
  funcs (addFuncmaps o u t) !! fn =
  match helperFuncs !! fn with
  | Some f => Some f
  | None =>
      match lastDefined (Funcs o) fn with
      | Some f => Some f
      | None => funcs t !! fn
      end
  end.
Proof.
  unfold Render.addFuncmaps. rewrite lookup_Funcs, lookup_fold_Funcs. reflexivity.
Qed.

Lemma tmpls_addFuncmaps o u t : tmpls (addFuncmaps o u t) = <[ u := None ]> (tmpls t).
Proof. unfold Render.addFuncmaps. cbn [Tmpl.Funcs tmpls]. now rewrite tmpls_fold_Funcs. Qed.

Lemma compileFile_parsed o e x t buf t' :
  ReadFile e = inl buf ->
  Parse (ToSlash Separator (name (rel e) x)) buf
        (addFuncmaps o (ToSlash Separator (name (rel e) x)) t) = inl t' ->
  compileFile o e x t = (t', None).
Proof. intros Hr Hp. unfold Render.compileFile. now rewrite Hr, Hp. Qed.

Lemma compileFile_parse_error o e x t buf err :
  ReadFile e = inl buf ->
  Parse (ToSlash Separator (name (rel e) x)) buf
        (addFuncmaps o (ToSlash Separator (name (rel e) x)) t) = inr err ->
  compileFile o e x t =
  (addFuncmaps o (ToSlash Separator (name (rel e) x)) t, Some err).
Proof. intros Hr Hp. unfold Render.compileFile. now rewrite Hr, Hp. Qed.

(** [C2] For every visited entry the walker's extension is the part of
    the relative path that starts at its first dot (empty without one), not
    the final suffix.  Unless that string equals an entry of the configured
    list, the entry compiles nothing.  When it does and the file is read and
    parsed, the unit is registered under the relative path with exactly
    that suffix stripped and passed through [ToSlash], which leaves no
    platform separator but the forward slash; no other name changes. *)
Theorem C2_walker_extension_and_name (o : Options) (e : Entry) (t : Template) :
  ext (rel e) = fromFirstDot (rel e) /\
  beforeFirstDot (rel e) +:+ ext (rel e) = rel e /\
  (ext (rel e) ∉ Extensions o -> walkFn o e t = (t, None)) /\
  (forall buf t',
      ext (rel e) ∈ Extensions o ->
      ReadFile e = inl buf ->
      let u := ToSlash Separator (beforeFirstDot (rel e)) in
      Parse u buf (addFuncmaps o u t) = inl t' ->
      walkFn o e t = (t', None) /\
      (exists tr, Lookup t' u = Some (Some tr)) /\
      (forall v, v <> u -> Lookup t' v = Lookup t v) /\
      (Separator <> "/"%char -> occurs Separator u = false)).
Proof.
  split; [apply ext_fromFirstDot |].
  split; [rewrite ext_fromFirstDot; apply before_from_FirstDot |].
  split.
  - intros Hx. now apply rangeExtensions_skip.
  - intros buf t' Hx Hr u Hp. subst u.
    rewrite <- name_beforeFirstDot in Hp |- *.
    split; [| split; [| split]].
    + unfold Render.walkFn. rewrite rangeExtensions_match by exact Hx.
      now apply (compileFile_parsed _ _ _ _ buf).
    + apply Parse_inl in Hp as (_ & [tr Htr] & _). exists tr.
      unfold Lookup. rewrite Htr. apply lookup_insert_eq.
    + intros v Hv. apply Parse_inl in Hp as (_ & [tr Htr] & _).
      unfold Lookup. rewrite Htr, tmpls_addFuncmaps.
      rewrite !lookup_insert_ne by congruence. reflexivity.
    + apply ToSlash_no_separator.
Qed.

Lemma Walk_app o (before rest : list Entry) t :
  Walk o (before ++ rest)%list t =
  match Walk o before t with
  | (t', Some p) => (t', Some p)
  | (t', None) => Walk o rest t'
  end.
Proof.
  revert t. induction before as [| e before IH]; intros t; [reflexivity |].
  cbn [app Render.Walk]. destruct (walkFn o e t) as [t' [p |]]; [reflexivity | apply IH].
Qed.

(** A walk that panics at an entry ends there, whatever follows. *)
Lemma Walk_panic o (before after : list Entry) e t t1 t2 p :
  Walk o before t = (t1, None) ->
  walkFn o e t1 = (t2, Some p) ->
  Walk o (before ++ e :: after)%list t = (t2, Some p).
Proof.
  intros Hb He. rewrite Walk_app, Hb. cbn [Render.Walk]. now rewrite He.
Qed.

(** [C1, amended] When a matched file fails to parse, compilation stops at
    that file with a panic that carries the parse error: the entries after
    it are not visited.  The renderer's reference was replaced by the fresh
    set when compilation began, so at the panic the renderer holds the fresh
    set with the units compiled before the failing file (and the failing unit
    unparsed), not the set installed before.  A development-mode [HTML] call
    passes the panic on and writes nothing to the response. *)
Theorem C1_parse_failure_panics_in_fresh_set
        (fs : FileSystem) (r : Render.Render) (before after : list Entry)
        (e : Entry) (buf : string) (t1 : Template) (err : error) :
  let o := opt r in
  let fresh := Tmpl.Delims (Left (OptDelims o)) (Right (OptDelims o))
                           (Tmpl.New (Directory o)) in
  let u := ToSlash Separator (name (rel e) (ext (rel e))) in
  fs (Directory o) = (before ++ e :: after)%list ->
  Walk o before fresh = (t1, None) ->
  ext (rel e) ∈ Extensions o ->
  ReadFile e = inl buf ->
  Parse u buf (addFuncmaps o u t1) = inr err ->
  let r' := setTemplates (Some (addFuncmaps o u t1)) r in
  compileTemplates fs r = (r', Some err) /\
  (forall v, View.unit r' v = (<[ u := None ]> (tmpls t1)) !! v) /\
  (forall fuel w status page binding htmlOpt,
      IsDevelopment o = true ->
      HTML Separator helperFuncs fuel fs r w status page binding htmlOpt
      = Some (r', w, Some err)).
Proof.
  intros o fresh u Hfs Hb Hx Hr Hp r'.
  assert (Hc : compileTemplates fs r = (r', Some err)).
  { unfold Render.compileTemplates. fold o. fold fresh. rewrite Hfs.
    rewrite (Walk_panic o before after e fresh t1 (addFuncmaps o u t1) err Hb).
    - reflexivity.
    - unfold Render.walkFn. rewrite rangeExtensions_match by exact Hx.
      now apply (compileFile_parse_error _ _ _ _ buf). }
  split; [exact Hc |]. split.
  - intros v. unfold View.unit, r'. cbn [templates setTemplates mbind option_bind].
    unfold Lookup. now rewrite tmpls_addFuncmaps.
  - intros fuel w status page binding htmlOpt Hdev.
    unfold Render.HTML. fold o. rewrite Hdev, Hc. reflexivity.
Qed.

End Walker.

(** ** Compilation on concrete trees *)

Lemma C2_walker_extension_and_name_witness :
  let o := Fixtures.options "templates" EmptyString [".tmpl"; ".html"] [] false in
  ext "dedicated.tmpl/notbad.tmpl" = ".tmpl/notbad.tmpl" /\
  walkFn "/" Helpers.helperFuncs o
         (mkEntry "templates/dedicated.tmpl/notbad.tmpl" "dedicated.tmpl/notbad.tmpl"
                  (File "not bad"))
         (Tmpl.New "templates")
  = (Tmpl.New "templates", None) /\
  exists t',
    walkFn "\" Helpers.helperFuncs o
           (mkEntry "templates\sub\page.html" "sub\page.html" (File "page"))
           (Tmpl.New "templates")
    = (t', None) /\
    Lookup t' "sub/page" = Some (Some [NText "page"]).
Proof.
  intros o.
  pose proof (C2_walker_extension_and_name "/" Helpers.helperFuncs o
                (mkEntry "templates/dedicated.tmpl/notbad.tmpl"
                         "dedicated.tmpl/notbad.tmpl" (File "not bad"))
                (Tmpl.New "templates")) as (Hext & _ & Hskip & _).
  split; [exact Hext |]. split.
  - apply Hskip. by_evaluation.
  - pose proof (C2_walker_extension_and_name "\" Helpers.helperFuncs o
                  (mkEntry "templates\sub\page.html" "sub\page.html" (File "page"))
                  (Tmpl.New "templates")) as (_ & _ & _ & Hreg).
    cbv zeta in Hreg.
    pose (e := mkEntry "templates\sub\page.html" "sub\page.html" (File "page")).
    pose (t' := fst (walkFn "\" Helpers.helperFuncs o e (Tmpl.New "templates"))).
    assert (Hx : ext (rel e) ∈ Extensions o) by by_evaluation.
    destruct (Hreg "page" t' Hx eq_refl ltac:(vm_compute; reflexivity)) as (Hw & _).
    exists t'. split; [exact Hw | vm_compute; reflexivity].
Defined.

(** [C1, counterexample] A renderer that serves [hello] recompiles from a
    tree whose second template does not parse: the call panics, and the
    renderer is left with a new, partially populated set in which [hello] is
    gone, [a] is compiled, [b] is registered but unparsed and [c] is
    missing. *)
Lemma C1_previous_set_not_preserved :
  let serving :=
    View.constructed
      (New "/" Helpers.helperFuncs Fixtures.basic
           (Fixtures.options "templates" EmptyString [] [] true)) in
  let after := compileTemplates "/" Helpers.helperFuncs Fixtures.broken serving in
  View.unit serving "hello" = Some (Some [NText "Hello "; NDot]) /\
  snd after = Some (ErrParse "b" "unclosed action") /\
  templates (fst after) <> templates serving /\
  View.unit (fst after) "hello" = None /\
  View.unit (fst after) "a" = Some (Some [NText "A"]) /\
  View.unit (fst after) "b" = Some None /\
  View.unit (fst after) "c" = None.
Proof.
  intros serving after.
  assert (Hgone : View.unit (fst after) "hello" = None)
    by (vm_compute; reflexivity).
  assert (Hthere : View.unit serving "hello" = Some (Some [NText "Hello "; NDot]))
    by (vm_compute; reflexivity).
  repeat split; try assumption; try (vm_compute; reflexivity).
  intros Heq. unfold View.unit in Hgone, Hthere.
  rewrite Heq, Hthere in Hgone. discriminate.
Qed.

Lemma C1_parse_failure_witness :
  let serving :=
    View.constructed
      (New "/" Helpers.helperFuncs Fixtures.basic
           (Fixtures.options "templates" EmptyString [] [] true)) in
  exists r',
    compileTemplates "/" Helpers.helperFuncs Fixtures.broken serving
    = (r', Some (ErrParse "b" "unclosed action")) /\
    View.unit r' "c" = None /\
    HTML "/" Helpers.helperFuncs 2 Fixtures.broken serving NewRecorder 200 "a"
         (VString "x") []
    = Some (r', NewRecorder, Some (ErrParse "b" "unclosed action")).
Proof.
  intros serving.
  pose (o := opt serving).
  pose (fresh := Tmpl.Delims (Left (OptDelims o)) (Right (OptDelims o))
                             (Tmpl.New (Directory o))).
  pose (before := [mkEntry "templates" "." Dir;
                   mkEntry "templates/a.tmpl" "a.tmpl" (File "A")]).
  pose proof (C1_parse_failure_panics_in_fresh_set "/" Helpers.helperFuncs
                Fixtures.broken serving before
                [mkEntry "templates/c.tmpl" "c.tmpl" (File "C")]
                (mkEntry "templates/b.tmpl" "b.tmpl" (File "B {{ oops"))
                "B {{ oops"
                (fst (Walk "/" Helpers.helperFuncs o before fresh))
                (ErrParse "b" "unclosed action")) as Hw.
  cbv zeta in Hw.
  assert (Hx : ext "b.tmpl" ∈ Extensions (opt serving))
    by by_evaluation.
  specialize (Hw ltac:(vm_compute; reflexivity) ltac:(vm_compute; reflexivity)
                 Hx eq_refl ltac:(vm_compute; reflexivity)).
  destruct Hw as (Hc & Hu & Hh).
  eexists. split; [exact Hc |]. split.
  - rewrite Hu. vm_compute. reflexivity.
  - apply Hh. vm_compute. reflexivity.
Defined.

(** A directory whose relative path bears a configured extension is handed
    to [ReadFile] like a file, and the read error becomes a panic. *)
Lemma walkFn_directory_panics (Separator : ascii) (helperFuncs : FuncMap)
      (o : Options) (p rel : string) (t : Template) :
  ext rel ∈ Extensions o ->
  walkFn Separator helperFuncs o (mkEntry p rel Dir) t
  = (t, Some (Errorf ("read " +:+ p +:+ ": is a directory"))).
Proof.
  intros Hx. unfold walkFn. cbn [Render.rel].
  rewrite rangeExtensions_match by exact Hx. reflexivity.
Qed.

(** [C3, at the failing input] On the tree of the lookup tests, whose
    directory [dedicated.tmpl] bears a configured extension, construction
    panics at that directory; the eligible file [subdir/1.tmpl], which the
    walk would visit later, is never compiled. *)
Theorem C3_directory_with_extension_panics :
  let o := Fixtures.options "testdata/template-dir-test" EmptyString
                            [".tmpl"; ".html"] [] false in
  let r0 := prepareOptions (mkRender o None EmptyString) in
  let after :=
    compileTemplates "/" Helpers.helperFuncs Fixtures.templateDirTest r0 in
  New "/" Helpers.helperFuncs Fixtures.templateDirTest o
  = inr (Errorf "read testdata/template-dir-test/dedicated.tmpl: is a directory") /\
  snd after
  = Some (Errorf "read testdata/template-dir-test/dedicated.tmpl: is a directory") /\
  View.unit (fst after) "0" = Some (Some [NText "zero"]) /\
  ext "subdir/1.tmpl" = ".tmpl" /\
  View.unit (fst after) "subdir/1" = None /\
  View.unit (fst after) "dedicated" = None.
Proof. vm_compute. repeat split; reflexivity. Qed.

(** ** Order of the function bundles *)

Section Bundles.

Variable Separator : ascii.
Variable helperFuncs : FuncMap.

(** [C4, amended] When a matched file is compiled, the user's bundles are
    attached to the function table first, in their configured order, and the
    built-in stand-ins are attached after them, immediately before the
    parse: under each name the table holds the stand-in if the helper bundle
    defines the name, otherwise the function of the last user bundle that
    defines it, otherwise what the table held before. *)
Theorem C4_user_bundles_then_builtins
        (o : Options) (e : Entry) (t : Template) (buf : string) :
  ext (rel e) ∈ Extensions o ->
  ReadFile e = inl buf ->
  let u := ToSlash Separator (name (rel e) (ext (rel e))) in
  let parsedAgainst :=
    Tmpl.Funcs helperFuncs
      (fold_left (fun t funcs => Tmpl.Funcs funcs t) (Funcs o) (Associate u t)) in
  walkFn Separator helperFuncs o e t
  = match Parse u buf parsedAgainst with
    | inl t' => (t', None)
    | inr err => (parsedAgainst, Some err)
    end /\
  (forall t', Parse u buf parsedAgainst = inl t' -> funcs t' = funcs parsedAgainst) /\
  forall fn,
    funcs parsedAgainst !! fn =
    match helperFuncs !! fn with
    | Some f => Some f
    | None =>
        match lastDefined (Funcs o) fn with
        | Some f => Some f
        | None => funcs t !! fn
        end
    end.
Proof.
  intros Hx Hr u parsedAgainst. split; [| split].
  - unfold walkFn. rewrite rangeExtensions_match by exact Hx.
    unfold compileFile. rewrite Hr. fold u.
    change (addFuncmaps helperFuncs o u t) with parsedAgainst.
    destruct (Parse u buf parsedAgainst); reflexivity.
  - intros t' Hp. now apply Parse_inl in Hp as (Hf & _).
  - intros fn. apply (lookup_addFuncmaps helperFuncs o u t fn).
Qed.

End Bundles.

(** [C4, counterexample] A user bundle defines [yield].  Were the stand-ins
    attached first and the user's bundles after them, the table would hold
    the user's function; the compiled set holds the stand-in, and rendering
    the page that calls [yield] reports the stand-in's error. *)
Lemma C4_builtin_standin_overrides_user_bundle :
  let o := Fixtures.options "templates" EmptyString [".tmpl"] [Fixtures.userYield] false in
  let e := mkEntry "templates/yield.tmpl" "yield.tmpl" (File "before {{ yield }} after") in
  let t := Tmpl.New "templates" in
  let r := View.constructed (New "/" Helpers.helperFuncs Fixtures.pages o) in
  funcs (builtinsThenUser Helpers.helperFuncs (Funcs o) (Associate "yield" t)) !! "yield"
  = Some (FnReturn (VHTML "mine") None) /\
  funcs (fst (walkFn "/" Helpers.helperFuncs o e t)) !! "yield"
  = Some (FnReturn (VString EmptyString)
                   (Some (Errorf "yield called with no layout defined"))) /\
  funcs (fst (walkFn "/" Helpers.helperFuncs o e t)) !! "yield"
  <> funcs (builtinsThenUser Helpers.helperFuncs (Funcs o) (Associate "yield" t)) !! "yield" /\
  View.response
    (HTML "/" Helpers.helperFuncs 2 Fixtures.pages r NewRecorder 200 "yield"
          (VString "gophers") [])
  = Some (Some 500,
          Tmpl.Error
            (ErrCall "yield" "yield" (Errorf "yield called with no layout defined"))
          +:+ newline,
          None).
Proof.
  intros o e t r. repeat split; try (vm_compute; reflexivity).
  vm_compute. discriminate.
Qed.

Lemma C4_user_bundles_then_builtins_witness :
  let o := Fixtures.options "templates" EmptyString [".tmpl"]
                            [Fixtures.userYield;
                             {[ "shout" := FnReturn (VString "a") None ]};
                             {[ "shout" := FnReturn (VString "b") None ]}] false in
  let e := mkEntry "templates/yield.tmpl" "yield.tmpl" (File "{{ shout }}") in
  exists t',
    walkFn "/" Helpers.helperFuncs o e (Tmpl.New "templates") = (t', None) /\
    funcs t' !! "yield"
    = Some (FnReturn (VString EmptyString)
                     (Some (Errorf "yield called with no layout defined"))) /\
    funcs t' !! "shout" = Some (FnReturn (VString "b") None).
Proof.
  intros o e.
  pose (t' := fst (walkFn "/" Helpers.helperFuncs o e (Tmpl.New "templates"))).
  assert (Hx : ext (rel e) ∈ Extensions o) by by_evaluation.
  destruct (C4_user_bundles_then_builtins "/" Helpers.helperFuncs o e
              (Tmpl.New "templates") "{{ shout }}" Hx eq_refl) as (Hw & Hf & Ht).
  exists t'. split; [| split].
  - rewrite Hw. vm_compute. reflexivity.
  - rewrite (Hf t' ltac:(vm_compute; reflexivity)), Ht. vm_compute. reflexivity.
  - rewrite (Hf t' ltac:(vm_compute; reflexivity)), Ht. vm_compute. reflexivity.
Defined.

(** ** Actions that call a function *)

Lemma parseAction_bound (fm : FuncMap) (u a fn : string) (f : func) :
  trimRight (trimLeft a) = fn ->
  String.eqb fn "." = false ->
  isIdentifier fn = true ->
  fm !! fn = Some f ->
  parseAction fm u a = inl (NCall fn).
Proof.
  intros Ha Hdot Hid Hf. unfold parseAction. now rewrite Ha, Hdot, Hid, Hf.
Qed.

Lemma execNodes_call_error call (fm : FuncMap) u data fn rest buf f v cause :
  fm !! fn = Some f ->
  call f = Some (v, Some cause) ->
  execNodes call fm u data (NCall fn :: rest) buf
  = Some (buf, Some (ErrCall u fn cause)).
Proof. intros Hf Hc. cbn [execNodes]. now rewrite Hf, Hc. Qed.

Lemma execNodes_call_value call (fm : FuncMap) u data fn rest buf f v :
  fm !! fn = Some f ->
  call f = Some (v, None) ->
  execNodes call fm u data (NCall fn :: rest) buf
  = execNodes call fm u data rest (buf +:+ printValue v).
Proof. intros Hf Hc. cbn [execNodes]. now rewrite Hf, Hc. Qed.

(** Text and [{{.}}] before an action only fill the buffer. *)
Lemma execNodes_before_call call (fm : FuncMap) u data (pre ns : tree) buf :
  Forall (fun n => forall fn, n <> NCall fn) pre ->
  exists buf', execNodes call fm u data (pre ++ ns)%list buf
               = execNodes call fm u data ns buf'.
Proof.
  intros Hpre. revert buf. induction Hpre as [| n pre Hn _ IH]; intros buf.
  - now exists buf.
  - destruct n as [s | | fn]; cbn [app execNodes]; [apply IH | apply IH |].
    now destruct (Hn fn).
Qed.

(** ** The helper bundle in a compiled set *)

Section Standins.

Variable Separator : ascii.
Variable helperFuncs : FuncMap.

(** Either no unit of the set is parsed yet, or the table holds the helper
    bundle. *)
Local Abbreviation prepared t :=
  ((forall u tr, tmpls t !! u <> Some (Some tr)) \/ helperFuncs ⊆ funcs t).

Lemma addFuncmaps_helpers o u t : helperFuncs ⊆ funcs (addFuncmaps helperFuncs o u t).
Proof.
  apply map_subseteq_spec. intros fn f Hf.
  now rewrite lookup_addFuncmaps, Hf.
Qed.

Lemma compileFile_prepared o e x t t' p :
  prepared t -> compileFile Separator helperFuncs o e x t = (t', p) -> prepared t'.
Proof.
  intros Ht. unfold compileFile. destruct (ReadFile e) as [buf | err].
  - destruct (Parse _ buf _) as [t2 | err] eqn:Hp; intros [= <- <-]; right.
    + apply Parse_inl in Hp as (-> & _). apply addFuncmaps_helpers.
    + apply addFuncmaps_helpers.
  - now intros [= <- <-].
Qed.

Lemma walkFn_prepared o e t t' p :
  prepared t -> walkFn Separator helperFuncs o e t = (t', p) -> prepared t'.
Proof.
  intros Ht. unfold walkFn.
  destruct (decide (ext (rel e) ∈ Extensions o)) as [Hx | Hx].
  - rewrite rangeExtensions_match by exact Hx. now apply compileFile_prepared.
  - rewrite rangeExtensions_skip by exact Hx. now intros [= <- <-].
Qed.

Lemma Walk_prepared o entries t t' p :
  prepared t -> Walk Separator helperFuncs o entries t = (t', p) -> prepared t'.
Proof.
  revert t. induction entries as [| e entries IH]; intros t Ht.
  - now intros [= <- <-].
  - cbn [Walk]. destruct (walkFn Separator helperFuncs o e t) as [t1 [q |]] eqn:He.
    + intros [= <- <-]. now apply (walkFn_prepared o e t t1 (Some q)).
    + apply IH. now apply (walkFn_prepared o e t t1 None).
Qed.

(** After [compileTemplates], however it ended, the renderer holds a set,
    and the helper bundle is in its table as soon as one unit is parsed. *)
Lemma compileTemplates_prepared fs r r' p :
  compileTemplates Separator helperFuncs fs r = (r', p) ->
  exists t, templates r' = Some t /\ prepared t.
Proof.
  unfold compileTemplates.
  destruct (Walk _ _ _ _ _) as [t q] eqn:Hw. intros [= <- <-].
  exists t. split; [reflexivity |].
  refine (Walk_prepared _ _ _ _ _ _ Hw).
  left. intros u tr. cbn [Tmpl.Delims Tmpl.New tmpls].
  destruct (decide (Directory (opt r) = u)) as [<- | Hne].
  - rewrite lookup_singleton_eq. discriminate.
  - rewrite lookup_singleton_ne by exact Hne. discriminate.
Qed.

End Standins.

(** ** Rendering *)

Lemma body_WriteHeader (w : ResponseWriter) (status : Z) :
  body (WriteHeader status w) = body w.
Proof. unfold WriteHeader. destruct (code w); reflexivity. Qed.

Lemma body_Write (w : ResponseWriter) (b : string) : body (Write b w) = body w +:+ b.
Proof. unfold Write. cbn [body]. now rewrite body_WriteHeader. Qed.

Lemma body_Error (w : ResponseWriter) (msg : string) (status : Z) :
  body (Http.Error w msg status) = body w +:+ msg +:+ newline.
Proof. unfold Http.Error. now rewrite body_Write, body_WriteHeader. Qed.

Section Rendering.

Variable Separator : ascii.
Variable helperFuncs : FuncMap.

Local Abbreviation compileTemplates := (compileTemplates Separator helperFuncs).
Local Abbreviation HTML := (HTML Separator helperFuncs).

Lemma compileTemplates_opt fs r r' p :
  compileTemplates fs r = (r', p) ->
  opt r' = opt r /\ compiledCharset r' = compiledCharset r.
Proof.
  unfold Render.compileTemplates. destruct (Walk _ _ _ _ _) as [t q].
  now intros [= <- <-].
Qed.

Lemma render_state fuel r w status name binding r' w' p :
  render fuel r w status name binding = Some (r', w', p) -> r' = r.
Proof.
  unfold render. destruct (execute fuel r name binding) as [[[out [err |]] | q] |];
    [| | | discriminate]; now intros [= <- <- <-].
Qed.

Lemma prepareHTMLOptions_opt r r0 htmlOpt :
  opt r0 = opt r -> prepareHTMLOptions r0 htmlOpt = prepareHTMLOptions r htmlOpt.
Proof. intros Ho. unfold prepareHTMLOptions. now rewrite Ho. Qed.

(** [HTML] is [execute] for the target on the staged renderer, followed by
    the answer. *)
Lemma HTML_staged fuel fs r w status name binding htmlOpt :
  HTML fuel fs r w status name binding htmlOpt
  = match View.staged Separator helperFuncs fs r name binding htmlOpt with
    | (r0, Some p) => Some (r0, w, Some p)
    | (r0, None) => render fuel r0 w status (View.target r name htmlOpt) binding
    end.
Proof.
  unfold Render.HTML, View.staged, View.target.
  destruct (if IsDevelopment (opt r) then compileTemplates fs r else (r, None))
    as [r0 [p |]] eqn:Hc; [reflexivity |].
  assert (Ho : opt r0 = opt r).
  { destruct (IsDevelopment (opt r)).
    - now apply compileTemplates_opt in Hc.
    - now injection Hc as <-. }
  rewrite (prepareHTMLOptions_opt r r0 htmlOpt Ho).
  destruct (0 <? String.length (HTMLLayout (prepareHTMLOptions r htmlOpt)))%nat;
    [| reflexivity].
  destruct (addYield r0 name binding); reflexivity.
Qed.

(** [C7] The template is executed into a buffer of its own.  When that
    execution fails, whatever the reason and whatever the buffer holds by
    then, the [HTML] call returns having reported the error through
    [http.Error]: the response body grows by the error's message and a
    newline and by nothing of the buffer.  The buffer reaches the response
    only when the execution succeeds.  [HTML.Render] returns the error and
    leaves the response as it was. *)
Theorem C7_failed_execution_writes_no_output
        (fuel : nat) (fs : FileSystem) (r : Render.Render) (w : ResponseWriter)
        (status : Z) (name : string) (binding : value)
        (htmlOpt : list HTMLOptions) (r0 : Render.Render) :
  View.staged Separator helperFuncs fs r name binding htmlOpt = (r0, None) ->
  (forall out err,
      execute fuel r0 (View.target r name htmlOpt) binding
      = Some (inl (out, Some err)) ->
      HTML fuel fs r w status name binding htmlOpt
      = Some (r0, Http.Error w (Tmpl.Error err) StatusInternalServerError, None) /\
      body (Http.Error w (Tmpl.Error err) StatusInternalServerError)
      = body w +:+ Tmpl.Error err +:+ newline) /\
  (forall out,
      execute fuel r0 (View.target r name htmlOpt) binding
      = Some (inl (out, None)) ->
      exists w',
        HTML fuel fs r w status name binding htmlOpt = Some (r0, w', None) /\
        body w' = body w +:+ out) /\
  (forall (h : Engine.HTML) out err,
      ExecuteTemplate fuel (Engine.Templates h) (Engine.Name h) binding
      = Some (out, Some err) ->
      Engine.Render fuel h w binding = Some (w, Some err)).
Proof.
  intros Hs. split; [| split].
  - intros out err He. rewrite HTML_staged, Hs. unfold render. rewrite He.
    split; [reflexivity | apply body_Error].
  - intros out He. rewrite HTML_staged, Hs. unfold render. rewrite He.
    eexists. split; [reflexivity |].
    rewrite body_Write, body_WriteHeader. reflexivity.
  - intros h out err He. unfold Engine.Render. now rewrite He.
Qed.

End Rendering.

(** The page [before {{ yield }} after] without a layout: the buffer holds
    [before ] when [yield] fails, the response only the error. *)
Lemma C7_failed_execution_witness :
  let o := Fixtures.options "templates" EmptyString [] [] false in
  let r := View.constructed (New "/" Helpers.helperFuncs Fixtures.pages o) in
  let err := ErrCall "yield" "yield" (Errorf "yield called with no layout defined") in
  execute 2 r "yield" (VString "gophers") = Some (inl ("before ", Some err)) /\
  View.response
    (HTML "/" Helpers.helperFuncs 2 Fixtures.pages r NewRecorder 200 "yield"
          (VString "gophers") [])
  = Some (Some 500, Tmpl.Error err +:+ newline, None).
Proof.
  intros o r err.
  split; [vm_compute; reflexivity |].
  destruct (C7_failed_execution_writes_no_output
              "/" Helpers.helperFuncs 2 Fixtures.pages r NewRecorder 200 "yield"
              (VString "gophers") [] r eq_refl) as (Hfail & _).
  destruct (Hfail "before " err ltac:(vm_compute; reflexivity)) as (Hcall & Hbody).
  rewrite Hcall. unfold View.response. rewrite Hbody. reflexivity.
Defined.

(** ** Rendering without a layout *)

(** [C6] With either helper bundle of the sources, the set against which a
    unit is parsed binds [yield] and [current] (and [partial], for the bundle
    of [helpers.go]), so actions that refer to them parse.  After a
    compilation, before any layout rebinds them, every set with a compiled
    unit still binds them to the stand-ins: an action that calls [yield]
    stops the execution with the error that no layout is defined, keeping the
    buffer as it was; an action that calls [current] adds nothing to the
    buffer and execution goes on.  A call that resolves no layout executes
    the requested unit on that set as it is.  So on a renderer that [New]
    returned, and on any renderer in development mode, a call that resolves no
    layout for a page that reaches a call of [yield] answers with status 500
    and that error; and outside development mode such a call leaves the
    renderer as it found it, so this holds until a call resolves a layout. *)
Theorem C6_standins_without_layout (Separator : ascii) (helperFuncs : FuncMap) :
  helperFuncs = Helpers.helperFuncs \/ helperFuncs = Render.helperFuncs ->
  let noLayout := Errorf "yield called with no layout defined" in
  let yieldStandin := FnReturn (VString EmptyString) (Some noLayout) in
  let currentStandin := FnReturn (VString EmptyString) None in
  let partialStandin :=
    FnReturn (VString EmptyString)
             (Some (Errorf "block called with no layout defined")) in
  (forall o u t,
      let parsedAgainst := addFuncmaps helperFuncs o u t in
      parseAction (funcs parsedAgainst) u "yield" = inl (NCall "yield") /\
      parseAction (funcs parsedAgainst) u "current" = inl (NCall "current") /\
      (helperFuncs = Helpers.helperFuncs ->
       parseAction (funcs parsedAgainst) u "partial" = inl (NCall "partial"))) /\
  (forall fs r r' p,
      compileTemplates Separator helperFuncs fs r = (r', p) ->
      exists t,
        templates r' = Some t /\
        forall u tr,
          Lookup t u = Some (Some tr) ->
          funcs t !! "yield" = Some yieldStandin /\
          funcs t !! "current" = Some currentStandin /\
          (helperFuncs = Helpers.helperFuncs ->
           funcs t !! "partial" = Some partialStandin) /\
          (forall fuel data rest buf,
              execNodes (callFunc (ExecuteTemplate fuel t)) (funcs t) u data
                        (NCall "yield" :: rest) buf
              = Some (buf, Some (ErrCall u "yield" noLayout))) /\
          (forall fuel data rest buf,
              execNodes (callFunc (ExecuteTemplate fuel t)) (funcs t) u data
                        (NCall "current" :: rest) buf
              = execNodes (callFunc (ExecuteTemplate fuel t)) (funcs t) u data
                          rest buf)) /\
  (forall fuel fs r w status name binding htmlOpt,
      HTMLLayout (prepareHTMLOptions r htmlOpt) = EmptyString ->
      HTML Separator helperFuncs fuel fs r w status name binding htmlOpt
      = match
          (if IsDevelopment (opt r)
           then compileTemplates Separator helperFuncs fs r else (r, None))
        with
        | (r0, Some p) => Some (r0, w, Some p)
        | (r0, None) => render fuel r0 w status name binding
        end) /\
  (forall fuel fs r w status name binding htmlOpt r0 t pre rest,
      HTMLLayout (prepareHTMLOptions r htmlOpt) = EmptyString ->
      IsDevelopment (opt r) = true \/
      (exists fs0 options, New Separator helperFuncs fs0 options = inl r) ->
      (if IsDevelopment (opt r)
       then compileTemplates Separator helperFuncs fs r else (r, None)) = (r0, None) ->
      templates r0 = Some t ->
      Lookup t name = Some (Some (pre ++ NCall "yield" :: rest)%list) ->
      Forall (fun n => forall fn, n <> NCall fn) pre ->
      (0 < fuel)%nat ->
      HTML Separator helperFuncs fuel fs r w status name binding htmlOpt
      = Some (r0,
              Http.Error w (Tmpl.Error (ErrCall name "yield" noLayout))
                         StatusInternalServerError,
              None)) /\
  (forall fuel fs r w status name binding htmlOpt r' w' p,
      HTMLLayout (prepareHTMLOptions r htmlOpt) = EmptyString ->
      IsDevelopment (opt r) = false ->
      HTML Separator helperFuncs fuel fs r w status name binding htmlOpt
      = Some (r', w', p) ->
      r' = r).
Proof.
  intros Hhf noLayout yieldStandin currentStandin partialStandin.
  assert (Hy : helperFuncs !! "yield" = Some yieldStandin)
    by (destruct Hhf as [-> | ->]; reflexivity).
  assert (Hc : helperFuncs !! "current" = Some currentStandin)
    by (destruct Hhf as [-> | ->]; reflexivity).
  assert (Hp : helperFuncs = Helpers.helperFuncs ->
               helperFuncs !! "partial" = Some partialStandin)
    by (intros ->; reflexivity).
  assert (Hplain : forall fuel fs r w status name binding htmlOpt,
             HTMLLayout (prepareHTMLOptions r htmlOpt) = EmptyString ->
             HTML Separator helperFuncs fuel fs r w status name binding htmlOpt
             = match
                 (if IsDevelopment (opt r)
                  then compileTemplates Separator helperFuncs fs r else (r, None))
               with
               | (r0, Some p) => Some (r0, w, Some p)
               | (r0, None) => render fuel r0 w status name binding
               end).
  { intros fuel fs r w status name binding htmlOpt Hl.
    rewrite HTML_staged. unfold View.staged, View.target.
    destruct (if IsDevelopment (opt r)
              then compileTemplates Separator helperFuncs fs r else (r, None))
      as [r0 [p |]] eqn:Hstage; [reflexivity |].
    assert (Ho : opt r0 = opt r).
    { destruct (IsDevelopment (opt r)).
      - now apply compileTemplates_opt in Hstage.
      - now injection Hstage as <-. }
    rewrite (prepareHTMLOptions_opt r r0 htmlOpt Ho), Hl. reflexivity. }
  split; [| split; [| split; [exact Hplain | split]]].
  - intros o u t parsedAgainst.
    pose proof (addFuncmaps_helpers helperFuncs o u t) as Hsub.
    rewrite map_subseteq_spec in Hsub. fold parsedAgainst in Hsub.
    split; [| split].
    + now apply (parseAction_bound _ _ _ _ yieldStandin); [..| apply Hsub].
    + now apply (parseAction_bound _ _ _ _ currentStandin); [..| apply Hsub].
    + intros Hh. apply (parseAction_bound _ _ _ _ partialStandin); try reflexivity.
      apply Hsub, Hp, Hh.
  - intros fs r r' p Hcomp.
    destruct (compileTemplates_prepared _ _ _ _ _ _ Hcomp) as (t & Ht & Hprep).
    exists t. split; [exact Ht |]. intros u tr Hu.
    destruct Hprep as [Hnone | Hsub]; [now destruct (Hnone u tr) |].
    rewrite map_subseteq_spec in Hsub.
    split; [now apply Hsub |]. split; [now apply Hsub |].
    split; [intros Hh; apply Hsub, Hp, Hh |]. split.
    + intros fuel data rest buf.
      now apply (execNodes_call_error _ _ _ _ _ _ _ yieldStandin (VString EmptyString));
        [apply Hsub |].
    + intros fuel data rest buf.
      rewrite (execNodes_call_value _ _ _ _ _ _ _ currentStandin (VString EmptyString));
        [| now apply Hsub | reflexivity].
      cbn [printValue htmlEscape]. now rewrite append_empty_r.
  - intros fuel fs r w status name binding htmlOpt r0 t pre rest
           Hl Hfresh Hstage Ht Hu Hpre Hfuel.
    assert (Hcomp : exists fs1 r1 p1,
               compileTemplates Separator helperFuncs fs1 r1 = (r0, p1)).
    { destruct (IsDevelopment (opt r)).
      - now exists fs, r, None.
      - injection Hstage as <-.
        destruct Hfresh as [Hdev | (fs0 & options & Hnew)]; [discriminate |].
        unfold New in Hnew.
        destruct (compileTemplates Separator helperFuncs fs0 _) as [r1 [q |]] eqn:Hc0;
          [discriminate |].
        injection Hnew as <-. eauto. }
    destruct Hcomp as (fs1 & r1 & p1 & Hcomp).
    destruct (compileTemplates_prepared _ _ _ _ _ _ Hcomp) as (t0 & Ht0 & Hprep).
    rewrite Ht in Ht0. injection Ht0 as <-.
    destruct Hprep as [Hnone | Hsub]; [now destruct (Hnone _ _ Hu) |].
    rewrite map_subseteq_spec in Hsub.
    rewrite (Hplain _ _ _ _ _ _ _ _ Hl), Hstage.
    unfold render, execute. rewrite Ht.
    destruct fuel as [| k]; [lia |].
    cbn [ExecuteTemplate]. unfold Lookup in Hu. rewrite Hu.
    destruct (execNodes_before_call (callFunc (ExecuteTemplate k t)) (funcs t) name
                binding pre (NCall "yield" :: rest) EmptyString Hpre) as (buf' & ->).
    rewrite (execNodes_call_error _ _ _ _ _ _ _ yieldStandin (VString EmptyString)
               noLayout (Hsub _ _ Hy) eq_refl).
    reflexivity.
  - intros fuel fs r w status name binding htmlOpt r' w' p Hl Hdev.
    rewrite (Hplain _ _ _ _ _ _ _ _ Hl), Hdev. apply render_state.
Qed.

Lemma C6_standins_without_layout_witness :
  let o := Fixtures.options "templates" EmptyString [] [Fixtures.userYield] false in
  let r := View.constructed (New "/" Helpers.helperFuncs Fixtures.pages o) in
  View.function r "yield"
  = Some (FnReturn (VString EmptyString)
                   (Some (Errorf "yield called with no layout defined"))) /\
  View.function r "partial"
  = Some (FnReturn (VString EmptyString)
                   (Some (Errorf "block called with no layout defined"))) /\
  View.response
    (HTML "/" Helpers.helperFuncs 2 Fixtures.pages r NewRecorder 200 "yield"
          (VString "gophers") [])
  = Some (Some 500,
          Tmpl.Error
            (ErrCall "yield" "yield" (Errorf "yield called with no layout defined"))
          +:+ newline,
          None) /\
  View.response
    (HTML "/" Helpers.helperFuncs 2 Fixtures.pages r NewRecorder 200 "current"
          (VString "gophers") [])
  = Some (Some 200, "[]", None).
Proof.
  intros o r.
  destruct (C6_standins_without_layout "/" Helpers.helperFuncs (or_introl eq_refl))
    as (_ & Hafter & _).
  destruct (Hafter Fixtures.pages (prepareOptions (mkRender o None EmptyString)) r None
                   ltac:(vm_compute; reflexivity)) as (t & Ht & Hunits).
  destruct (Hunits "yield" [NText "before "; NCall "yield"; NText " after"])
    as (Hy & _ & Hp & _).
  { injection Ht as <-. vm_compute. reflexivity. }
  unfold View.function. rewrite Ht. cbn [mbind option_bind].
  split; [exact Hy |]. split; [exact (Hp eq_refl) |].
  split; vm_compute; reflexivity.
Defined.

(** On a renderer without a default layout and outside development mode,
    a first call asks for the layout through its own options; a second call
    configures no layout at all and asks for a page that calls [yield] and
    [current].  The second call does not fail: [yield] still runs the first
    call's page with the first call's binding, and [current] still names
    it. *)
Lemma C6_yield_rebound_by_earlier_layout_call :
  let o := Fixtures.options "templates" EmptyString [] [] false in
  let r := View.constructed (New "/" Helpers.helperFuncs Cases.leaky o) in
  let first := HTML "/" Helpers.helperFuncs 2 Cases.leaky r NewRecorder 200 "hello"
                    (VString "first") [mkHTMLOptions "layout"] in
  let r' := View.after r first in
  New "/" Helpers.helperFuncs Cases.leaky o = inl r /\
  IsDevelopment (opt r) = false /\
  View.unit r "other"
  = Some (Some [NText "other: "; NCall "yield"; NText " ("; NCall "current"; NText ")"]) /\
  View.function r "yield"
  = Some (FnReturn (VString EmptyString)
                   (Some (Errorf "yield called with no layout defined"))) /\
  View.response first = Some (Some 200, "<h1>Hello first</h1>", None) /\
  HTMLLayout (prepareHTMLOptions r' []) = EmptyString /\
  View.function r' "yield" = Some (FnExecute "hello" (VString "first")) /\
  View.function r' "current" = Some (FnReturn (VString "hello") None) /\
  View.response
    (HTML "/" Helpers.helperFuncs 2 Cases.leaky r' NewRecorder 200 "other"
          (VString "second") [])
  = Some (Some 200, "other: Hello first (hello)", None).
Proof. repeat split; vm_compute; reflexivity. Qed.

(** ** Layouts *)

Lemma layout_assigned (layout : string) :
  layout <> EmptyString -> (0 <? String.length layout)%nat = true.
Proof. destruct layout; [congruence | reflexivity]. Qed.

(** [C5] When the call resolves a non-empty layout, [HTML] executes the
    layout's name with the binding it was given, on the set to which
    [addYield] has added [yield] and [current].  In any unit of that set an
    action that calls [yield] executes the requested template with the same
    binding and adds its output to the buffer as it is, without escaping it
    again (an error of that execution becomes the error of the call); an
    action that calls [current] prints the requested template's name.  With
    the bodies [Hello {{.}}] and [<h1>{{yield}}</h1>] and the binding
    [gophers], the response is [<h1>Hello gophers</h1>] for every nesting
    bound of at least two. *)
Theorem C5_layout_yield_current :
  (forall Separator helperFuncs fuel fs r r0 t w status name binding htmlOpt,
      (if IsDevelopment (opt r)
       then compileTemplates Separator helperFuncs fs r else (r, None))
      = (r0, None) ->
      templates r0 = Some t ->
      let layout := HTMLLayout (prepareHTMLOptions r htmlOpt) in
      layout <> EmptyString ->
      let t' :=
        Tmpl.Funcs (<[ "yield" := FnExecute name binding ]>
                    (<[ "current" := FnReturn (VString name) None ]> ∅)) t in
      let r' := setTemplates (Some t') r0 in
      HTML Separator helperFuncs fuel fs r w status name binding htmlOpt
      = render fuel r' w status layout binding /\
      execute fuel r' layout binding
      = inl <$> ExecuteTemplate fuel t' layout binding /\
      (forall k u data rest buf,
          execNodes (callFunc (ExecuteTemplate k t')) (funcs t') u data
                    (NCall "yield" :: rest) buf
          = match ExecuteTemplate k t' name binding with
            | None => None
            | Some (out, Some err) => Some (buf, Some (ErrCall u "yield" err))
            | Some (out, None) =>
                execNodes (callFunc (ExecuteTemplate k t')) (funcs t') u data
                          rest (buf +:+ out)
            end) /\
      (forall k u data rest buf,
          execNodes (callFunc (ExecuteTemplate k t')) (funcs t') u data
                    (NCall "current" :: rest) buf
          = execNodes (callFunc (ExecuteTemplate k t')) (funcs t') u data
                      rest (buf +:+ htmlEscape name))) /\
  (forall fuel,
      (2 <= fuel)%nat ->
      let r := View.constructed
                 (New "/" Helpers.helperFuncs Fixtures.basic
                      (Fixtures.options "templates" "layout" [] [] false)) in
      View.response
        (HTML "/" Helpers.helperFuncs fuel Fixtures.basic r NewRecorder 200
              "hello" (VString "gophers") [])
      = Some (Some 200, "<h1>Hello gophers</h1>", None)).
Proof.
  split.
  - intros Separator helperFuncs fuel fs r r0 t w status name binding htmlOpt
           Hc Ht layout Hl t' r'.
    assert (Ho : opt r0 = opt r).
    { destruct (IsDevelopment (opt r)).
      - now apply compileTemplates_opt in Hc.
      - now injection Hc as <-. }
    assert (Hy : funcs t' !! "yield" = Some (FnExecute name binding)).
    { unfold t'. rewrite lookup_Funcs. now rewrite lookup_insert_eq. }
    assert (Hcur : funcs t' !! "current" = Some (FnReturn (VString name) None)).
    { unfold t'. rewrite lookup_Funcs.
      rewrite lookup_insert_ne by discriminate. now rewrite lookup_insert_eq. }
    split; [| split; [| split]].
    + unfold HTML. rewrite Hc.
      replace (prepareHTMLOptions r0 htmlOpt) with (prepareHTMLOptions r htmlOpt)
        by (unfold prepareHTMLOptions; now rewrite Ho).
      fold layout. rewrite (layout_assigned layout Hl).
      unfold addYield. rewrite Ht. reflexivity.
    + unfold execute, r'. cbn [templates setTemplates].
      destruct (ExecuteTemplate fuel t' layout binding); reflexivity.
    + intros k u data rest buf. cbn [execNodes]. rewrite Hy. cbn [callFunc].
      destruct (ExecuteTemplate k t' name binding) as [[out [err |]] |]; reflexivity.
    + intros k u data rest buf.
      now rewrite (execNodes_call_value _ _ _ _ _ _ _ _ (VString name) Hcur).
  - intros fuel Hfuel r. destruct fuel as [| [| k]]; [lia | lia |].
    vm_compute. reflexivity.
Qed.

Lemma C5_layout_yield_current_witness :
  let r := View.constructed
             (New "/" Helpers.helperFuncs Fixtures.basic
                  (Fixtures.options "templates" EmptyString [] [] false)) in
  let r2 := View.constructed
              (New "/" Helpers.helperFuncs Fixtures.basic
                   (Fixtures.options "templates" "layout" [] [] false)) in
  View.response
    (HTML "/" Helpers.helperFuncs 2 Fixtures.basic r NewRecorder 200
          "hello" (VString "<gophers>") [mkHTMLOptions "layout"])
  = Some (Some 200, "<h1>Hello &lt;gophers&gt;</h1>", None) /\
  View.response
    (HTML "/" Helpers.helperFuncs 5 Fixtures.basic r2 NewRecorder 200
          "hello" (VString "gophers") [])
  = Some (Some 200, "<h1>Hello gophers</h1>", None).
Proof.
  intros r r2.
  destruct C5_layout_yield_current as (Hgeneral & Hexample).
  split.
  - pose (t := default (Tmpl.New EmptyString) (templates r)).
    destruct (Hgeneral "/"%char Helpers.helperFuncs 2%nat Fixtures.basic r r t
                NewRecorder 200 "hello" (VString "<gophers>")
                [mkHTMLOptions "layout"] eq_refl ltac:(vm_compute; reflexivity)
                ltac:(discriminate)) as (Hcall & _).
    rewrite Hcall. vm_compute. reflexivity.
  - apply (Hexample 5%nat). lia.
Defined.

(** ** Development mode *)

Section Reload.

Variable Separator : ascii.
Variable helperFuncs : FuncMap.

Local Abbreviation compileTemplates := (compileTemplates Separator helperFuncs).
Local Abbreviation HTML := (HTML Separator helperFuncs).
Local Abbreviation New := (New Separator helperFuncs).

(** What [compileTemplates] produces is determined by the options, the
    charset and the file tree: the set installed before plays no part. *)
Lemma compileTemplates_ext fs r1 r2 :
  opt r2 = opt r1 ->
  compiledCharset r2 = compiledCharset r1 ->
  compileTemplates fs r2 = compileTemplates fs r1.
Proof.
  intros Ho Hc. unfold Render.compileTemplates. rewrite Ho.
  destruct (Walk _ _ _ _ _) as [t p]. unfold setTemplates. now rewrite Ho, Hc.
Qed.

Lemma render_units fuel r w status name binding r' w' p v :
  render fuel r w status name binding = Some (r', w', p) ->
  View.unit r' v = View.unit r v.
Proof. intros H. now rewrite (render_state _ _ _ _ _ _ _ _ _ H). Qed.

Lemma addYield_units r name binding r' v :
  addYield r name binding = inl r' -> View.unit r' v = View.unit r v.
Proof.
  unfold addYield. destruct (templates r) as [t |] eqn:Ht; [| discriminate].
  intros [= <-]. unfold View.unit. rewrite Ht. reflexivity.
Qed.

(** [C8] In development mode every [HTML] call compiles the set anew from
    the file tree before it executes: its whole result is determined by the
    options, the charset and the tree at the time of the call, whatever set
    was installed before.  Outside development mode the call does not look
    at the file tree and leaves every unit as it was: the set is the one
    that [New] compiled at construction.  For a development-mode renderer,
    editing [hello.tmpl] between two calls changes the second response; for
    a static renderer it does not. *)
Theorem C8_development_mode_recompiles :
  (forall fuel fs r1 r2 w status name binding htmlOpt,
      IsDevelopment (opt r1) = true ->
      opt r2 = opt r1 ->
      compiledCharset r2 = compiledCharset r1 ->
      HTML fuel fs r2 w status name binding htmlOpt
      = HTML fuel fs r1 w status name binding htmlOpt) /\
  (forall fuel fs r w status name binding htmlOpt r' w' p,
      IsDevelopment (opt r) = true ->
      HTML fuel fs r w status name binding htmlOpt = Some (r', w', p) ->
      forall v,
        View.unit r' v = View.unit (fst (compileTemplates fs r)) v) /\
  (forall fuel fs1 fs2 r w status name binding htmlOpt,
      IsDevelopment (opt r) = false ->
      HTML fuel fs1 r w status name binding htmlOpt
      = HTML fuel fs2 r w status name binding htmlOpt) /\
  (forall fuel fs r w status name binding htmlOpt r' w' p,
      IsDevelopment (opt r) = false ->
      HTML fuel fs r w status name binding htmlOpt = Some (r', w', p) ->
      forall v, View.unit r' v = View.unit r v) /\
  (forall fs options r,
      New fs options = inl r ->
      compileTemplates fs (prepareOptions (mkRender options None EmptyString))
      = (r, None)) /\
  (forall dev,
      let r := View.constructed
                 (Render.New "/" Helpers.helperFuncs Fixtures.basic
                             (Fixtures.options "templates" EmptyString [] [] dev)) in
      let first := Render.HTML "/" Helpers.helperFuncs 1 Fixtures.basic r
                               NewRecorder 200 "hello" (VString "gophers") [] in
      let second := Render.HTML "/" Helpers.helperFuncs 1 Fixtures.basicEdited
                                (View.after r first)
                                NewRecorder 200 "hello" (VString "gophers") [] in
      View.response first = Some (Some 200, "Hello gophers", None) /\
      View.response second
      = Some (Some 200, if dev then "Goodbye gophers" else "Hello gophers", None)).
Proof.
  split; [| split; [| split; [| split; [| split]]]].
  - intros fuel fs r1 r2 w status name binding htmlOpt Hdev Ho Hc.
    unfold Render.HTML. rewrite Ho, Hdev.
    now rewrite (compileTemplates_ext fs r1 r2 Ho Hc).
  - intros fuel fs r w status name binding htmlOpt r' w' p Hdev.
    unfold Render.HTML. rewrite Hdev.
    destruct (compileTemplates fs r) as [r0 [q |]]; cbn [fst].
    + now intros [= <- <- <-].
    + destruct (0 <? _)%nat.
      * destruct (addYield r0 name binding) as [r1 | q] eqn:Hy.
        -- intros H v. rewrite (render_units _ _ _ _ _ _ _ _ _ v H).
           now apply (addYield_units r0 name binding).
        -- now intros [= <- <- <-].
      * intros H v. now apply (render_units _ _ _ _ _ _ _ _ _ v H).
  - intros fuel fs1 fs2 r w status name binding htmlOpt Hdev.
    unfold Render.HTML. now rewrite Hdev.
  - intros fuel fs r w status name binding htmlOpt r' w' p Hdev.
    unfold Render.HTML. rewrite Hdev.
    destruct (0 <? _)%nat.
    + destruct (addYield r name binding) as [r1 | q] eqn:Hy.
      * intros H v. rewrite (render_units _ _ _ _ _ _ _ _ _ v H).
        now apply (addYield_units r name binding).
      * now intros [= <- <- <-].
    + intros H v. now apply (render_units _ _ _ _ _ _ _ _ _ v H).
  - intros fs options r. unfold Render.New.
    destruct (compileTemplates fs _) as [r0 [q |]]; [discriminate |].
    now intros [= <-].
  - intros [|]; vm_compute; split; reflexivity.
Qed.

End Reload.

Lemma C8_development_mode_witness :
  let r := View.constructed
             (New "/" Helpers.helperFuncs Fixtures.basic
                  (Fixtures.options "templates" EmptyString [] [] true)) in
  let stale := setTemplates (Some (Tmpl.New "stale")) r in
  View.response
    (HTML "/" Helpers.helperFuncs 1 Fixtures.basicEdited stale NewRecorder 200
          "hello" (VString "gophers") [])
  = Some (Some 200, "Goodbye gophers", None).
Proof.
  intros r stale.
  destruct (C8_development_mode_recompiles "/" Helpers.helperFuncs)
    as (Hdev & _).
  rewrite (Hdev 1%nat Fixtures.basicEdited r stale NewRecorder 200 "hello"
                (VString "gophers") [] eq_refl eq_refl eq_refl).
  vm_compute. reflexivity.
Defined.

(** ** Options of a single call *)

Section PerCall.

Variable Separator : ascii.
Variable helperFuncs : FuncMap.

Local Abbreviation compileTemplates := (compileTemplates Separator helperFuncs).
Local Abbreviation HTML := (HTML Separator helperFuncs).

Lemma rangeExtensions_layout layout r e x extensions t :
  rangeExtensions Separator helperFuncs (opt (View.withLayout layout r)) e x
                  extensions t
  = rangeExtensions Separator helperFuncs (opt r) e x extensions t.
Proof.
  induction extensions as [| y ys IH]; [reflexivity |].
  cbn [rangeExtensions]. destruct (String.eqb x y); [reflexivity | exact IH].
Qed.

Lemma Walk_layout layout r entries t :
  Walk Separator helperFuncs (opt (View.withLayout layout r)) entries t
  = Walk Separator helperFuncs (opt r) entries t.
Proof.
  revert t. induction entries as [| e entries IH]; intros t; [reflexivity |].
  cbn [Walk]. unfold walkFn.
  change (Extensions (opt (View.withLayout layout r))) with (Extensions (opt r)).
  rewrite rangeExtensions_layout.
  destruct (rangeExtensions _ _ _ _ _ _ _) as [t' [p |]]; [reflexivity | apply IH].
Qed.

(** The default layout plays no part in compilation. *)
Lemma compileTemplates_layout layout fs r :
  compileTemplates fs (View.withLayout layout r)
  = (View.withLayout layout (fst (compileTemplates fs r)),
     snd (compileTemplates fs r)).
Proof.
  unfold Render.compileTemplates.
  change (Directory (opt (View.withLayout layout r))) with (Directory (opt r)).
  change (OptDelims (opt (View.withLayout layout r))) with (OptDelims (opt r)).
  rewrite Walk_layout. destruct (Walk _ _ _ _ _) as [t p]. reflexivity.
Qed.

Lemma render_layout layout fuel r w status name binding :
  View.response (render fuel (View.withLayout layout r) w status name binding)
  = View.response (render fuel r w status name binding).
Proof.
  unfold render, execute. cbn [View.withLayout templates].
  destruct (templates r) as [t |]; [| reflexivity].
  destruct (ExecuteTemplate fuel t name binding) as [[out [err |]] |]; reflexivity.
Qed.

(** [C10] Options given with the call are returned as they are, whatever
    the renderer's defaults.  When their layout is empty, the call answers
    as a renderer without a default layout answers a call without options,
    and outside development mode it is the requested template that is
    executed, on the renderer as it stands.  A renderer constructed with the
    default layout [layout] renders [hello] inside the layout without
    per-call options and bare with per-call options whose layout is empty. *)
Theorem C10_per_call_options_replace_defaults :
  (forall r o rest, prepareHTMLOptions r (o :: rest) = o) /\
  (forall fuel fs r w status name binding o rest,
      HTMLLayout o = EmptyString ->
      View.response (HTML fuel fs r w status name binding (o :: rest))
      = View.response
          (HTML fuel fs (View.withLayout EmptyString r) w status name binding [])) /\
  (forall fuel fs r w status name binding o rest,
      HTMLLayout o = EmptyString ->
      IsDevelopment (opt r) = false ->
      HTML fuel fs r w status name binding (o :: rest)
      = render fuel r w status name binding) /\
  (let r := View.constructed
              (New "/" Helpers.helperFuncs Fixtures.basic
                   (Fixtures.options "templates" "layout" [] [] false)) in
   Layout (opt r) = "layout" /\
   View.response
     (Render.HTML "/" Helpers.helperFuncs 2 Fixtures.basic r NewRecorder 200
                  "hello" (VString "gophers") [])
   = Some (Some 200, "<h1>Hello gophers</h1>", None) /\
   View.response
     (Render.HTML "/" Helpers.helperFuncs 2 Fixtures.basic r NewRecorder 200
                  "hello" (VString "gophers") [mkHTMLOptions EmptyString])
   = Some (Some 200, "Hello gophers", None)).
Proof.
  split; [reflexivity |]. split; [| split].
  - intros fuel fs r w status name binding o rest Ho.
    unfold Render.HTML. cbn [prepareHTMLOptions]. rewrite Ho.
    change (IsDevelopment (opt (View.withLayout EmptyString r)))
      with (IsDevelopment (opt r)).
    destruct (IsDevelopment (opt r)).
    + rewrite compileTemplates_layout.
      destruct (compileTemplates fs r) as [r0 [p |]]; cbn [fst snd].
      * reflexivity.
      * cbn. symmetry. apply render_layout.
    + cbn. symmetry. apply render_layout.
  - intros fuel fs r w status name binding o rest Ho Hdev.
    unfold Render.HTML. rewrite Hdev. cbn [prepareHTMLOptions]. now rewrite Ho.
  - vm_compute. repeat split; reflexivity.
Qed.

End PerCall.

Lemma C10_per_call_options_witness :
  let r := View.constructed
             (New "/" Helpers.helperFuncs Fixtures.basic
                  (Fixtures.options "templates" "layout" [] [] false)) in
  HTML "/" Helpers.helperFuncs 2 Fixtures.basic r NewRecorder 200 "hello"
       (VString "gophers") [mkHTMLOptions EmptyString]
  = render 2 r NewRecorder 200 "hello" (VString "gophers") /\
  View.function
    (View.after r
       (HTML "/" Helpers.helperFuncs 2 Fixtures.basic r NewRecorder 200 "hello"
             (VString "gophers") [mkHTMLOptions EmptyString])) "yield"
  = Some (FnReturn (VString EmptyString)
                   (Some (Errorf "yield called with no layout defined"))).
Proof.
  intros r.
  destruct (C10_per_call_options_replace_defaults "/" Helpers.helperFuncs)
    as (_ & _ & Hbare & _).
  rewrite (Hbare 2%nat Fixtures.basic r NewRecorder 200 "hello" (VString "gophers")
                 (mkHTMLOptions EmptyString) [] eq_refl eq_refl).
  split; [reflexivity | vm_compute; reflexivity].
Defined.

(** * Further properties of the code *)

Import Formats Sets.

(** ** Defaults *)

(** [X1] [prepareOptions] is idempotent.  After it the charset, the
    directory, the extension list and the HTML content type are non-empty,
    values that were given are kept, and the compiled charset is the charset
    behind [; charset=]. *)
Theorem prepareOptions_idempotent_defaults (r : Render.Render) :
  let r1 := prepareOptions r in
  prepareOptions r1 = r1 /\
  Charset (opt r1) <> EmptyString /\
  Directory (opt r1) <> EmptyString /\
  Extensions (opt r1) <> [] /\
  HTMLContentType (opt r1) <> EmptyString /\
  compiledCharset r1 = "; charset=" +:+ Charset (opt r1) /\
  (Charset (opt r) <> EmptyString -> Charset (opt r1) = Charset (opt r)) /\
  (Directory (opt r) <> EmptyString -> Directory (opt r1) = Directory (opt r)) /\
  (Extensions (opt r) <> [] -> Extensions (opt r1) = Extensions (opt r)) /\
  (HTMLContentType (opt r) <> EmptyString ->
   HTMLContentType (opt r1) = HTMLContentType (opt r)) /\
  templates r1 = templates r.
Proof.
  destruct r as [[dir lay exts fns dl cs ij ix pj px ct dev] t cc].
  unfold prepareOptions. cbn [opt templates compiledCharset Charset Directory
    Extensions HTMLContentType Layout Funcs OptDelims IndentJSON IndentXML
    PrefixJSON PrefixXML IsDevelopment].
  destruct cs as [| c1 cs]; destruct dir as [| d1 dir]; destruct exts as [| e1 exts];
    destruct ct as [| t1 ct]; cbn;
    repeat split; try reflexivity; try discriminate; try congruence.
Qed.

Lemma prepareOptions_witness :
  let r := mkRender (Fixtures.options EmptyString EmptyString [] [] false)
                    None EmptyString in
  compiledCharset (prepareOptions r) = "; charset=UTF-8" /\
  Directory (opt (prepareOptions r)) = "templates" /\
  Extensions (opt (prepareOptions r)) = [".tmpl"] /\
  Extensions (opt (prepareOptions
                     (mkRender (Fixtures.options "views" EmptyString [".html"] [] false)
                               None EmptyString))) = [".html"].
Proof.
  intros r.
  destruct (prepareOptions_idempotent_defaults
              (mkRender (Fixtures.options "views" EmptyString [".html"] [] false)
                        None EmptyString))
    as (_ & _ & _ & _ & _ & _ & _ & _ & Hexts & _).
  split; [reflexivity |]. split; [reflexivity |]. split; [reflexivity |].
  exact (Hexts ltac:(discriminate)).
Defined.

(** ** The extension and the name of a path *)

Lemma length_fromFirstDot (s : string) :
  (String.length (fromFirstDot s) <= String.length s)%nat.
Proof.
  induction s as [| c s IH]; [reflexivity |].
  cbn [fromFirstDot]. destruct (Ascii.eqb c "."); [reflexivity |].
  cbn [String.length]. lia.
Qed.

Lemma fromFirstDot_dot (s : string) :
  occurs "." s = true -> exists rest, fromFirstDot s = String "." rest.
Proof.
  induction s as [| c s IH]; [discriminate |].
  cbn [occurs fromFirstDot]. destruct (Ascii.eqb_spec c ".") as [-> | Hc]; cbn [orb].
  - intros _. now exists s.
  - exact IH.
Qed.

(** [X2] The extension is never longer than the path, so the slice that
    cuts the name is in range; name and extension put together are the path
    again; the name holds no dot; the extension is empty exactly when the
    path holds no dot and begins with a dot otherwise. *)
Theorem ext_name_partition (rel : string) :
  (String.length (ext rel) <= String.length rel)%nat /\
  name rel (ext rel) +:+ ext rel = rel /\
  occurs "." (name rel (ext rel)) = false /\
  (occurs "." rel = false -> ext rel = EmptyString /\ name rel (ext rel) = rel) /\
  (occurs "." rel = true -> exists rest, ext rel = String "." rest).
Proof.
  rewrite name_beforeFirstDot, ext_fromFirstDot.
  split; [apply length_fromFirstDot |].
  split; [apply before_from_FirstDot |].
  split; [apply beforeFirstDot_no_dot |].
  split.
  - intros Hd. pose proof (fromFirstDot_no_dot rel Hd) as He.
    split; [exact He |].
    pose proof (before_from_FirstDot rel) as Hp. rewrite He in Hp.
    now rewrite append_empty_r in Hp.
  - apply fromFirstDot_dot.
Qed.

Lemma ext_name_partition_witness :
  ext "admin/users.list.tmpl" = ".list.tmpl" /\
  name "admin/users.list.tmpl" (ext "admin/users.list.tmpl") = "admin/users" /\
  ext "Makefile" = EmptyString /\ name "Makefile" (ext "Makefile") = "Makefile".
Proof.
  destruct (ext_name_partition "Makefile") as (_ & _ & _ & Hnone & _).
  destruct (Hnone eq_refl) as (He & Hn).
  repeat split; try reflexivity; assumption.
Defined.

(** ** Invariants of the walk *)

Section WalkInvariants.

Variable Separator : ascii.
Variable helperFuncs : FuncMap.

Local Abbreviation addFuncmaps := (addFuncmaps helperFuncs).
Local Abbreviation compileFile := (compileFile Separator helperFuncs).
Local Abbreviation walkFn := (walkFn Separator helperFuncs).
Local Abbreviation Walk := (Walk Separator helperFuncs).
Local Abbreviation compileTemplates := (compileTemplates Separator helperFuncs).

(** The three ways the compilation of a matched entry ends. *)
Lemma compileFile_cases o e x t t' p :
  compileFile o e x t = (t', p) ->
  let u := ToSlash Separator (name (rel e) x) in
  (exists err, ReadFile e = inr err /\ t' = t /\ p = Some err) \/
  (exists buf err,
      ReadFile e = inl buf /\ Parse u buf (addFuncmaps o u t) = inr err /\
      t' = addFuncmaps o u t /\ p = Some err) \/
  (exists buf,
      ReadFile e = inl buf /\ Parse u buf (addFuncmaps o u t) = inl t' /\ p = None).
Proof.
  intros H u. unfold Render.compileFile in H. destruct (ReadFile e) as [buf | err].
  - fold u in H. destruct (Parse u buf (addFuncmaps o u t)) as [t2 | err] eqn:Hp;
      injection H as <- <-.
    + right. right. now exists buf.
    + right. left. now exists buf, err.
  - injection H as <- <-. left. now exists err.
Qed.

(** A property of sets that the registration of a unit and its parse keep
    is kept by the whole walk. *)
Lemma Walk_invariant (P : Template -> Prop) o entries t t' p :
  (forall e t, P t ->
     P (addFuncmaps o (ToSlash Separator (name (rel e) (ext (rel e)))) t)) ->
  (forall u buf t t',
     P t -> is_Some (tmpls t !! u) -> Parse u buf t = inl t' -> P t') ->
  P t -> Walk o entries t = (t', p) -> P t'.
Proof.
  intros Hadd Hparse. revert t. induction entries as [| e entries IH]; intros t Ht.
  - now intros [= <- <-].
  - cbn [Render.Walk].
    destruct (walkFn o e t) as [t1 q] eqn:He.
    assert (Ht1 : P t1).
    { unfold Render.walkFn in He.
      destruct (decide (ext (rel e) ∈ Extensions o)) as [Hx | Hx].
      - rewrite rangeExtensions_match in He by exact Hx.
        apply compileFile_cases in He as
            [(err & _ & -> & _) | [(buf & err & _ & _ & -> & _) | (buf & _ & Hp & _)]].
        + exact Ht.
        + now apply Hadd.
        + eapply Hparse; [| | exact Hp]; [now apply Hadd |].
          rewrite tmpls_addFuncmaps, lookup_insert_eq. eauto.
      - rewrite rangeExtensions_skip in He by exact Hx. now injection He as <- <-. }
    destruct q as [q |]; [now intros [= <- <-] | now apply IH].
Qed.

Lemma compileTemplates_invariant (P : Template -> Prop) fs r r' p :
  (forall e t, P t ->
     P (addFuncmaps (opt r) (ToSlash Separator (name (rel e) (ext (rel e)))) t)) ->
  (forall u buf t t',
     P t -> is_Some (tmpls t !! u) -> Parse u buf t = inl t' -> P t') ->
  P (Tmpl.Delims (Left (OptDelims (opt r))) (Right (OptDelims (opt r)))
                 (Tmpl.New (Directory (opt r)))) ->
  compileTemplates fs r = (r', p) ->
  exists t, templates r' = Some t /\ P t.
Proof.
  intros Hadd Hparse Hinit. unfold Render.compileTemplates.
  destruct (Walk _ _ _) as [t q] eqn:Hw. intros [= <- <-].
  exists t. split; [reflexivity |].
  exact (Walk_invariant P _ _ _ _ _ Hadd Hparse Hinit Hw).
Qed.

End WalkInvariants.

(** ** What a compiled set keeps *)

Section CompiledSets.

Variable Separator : ascii.
Variable helperFuncs : FuncMap.

Local Abbreviation addFuncmaps := (addFuncmaps helperFuncs).
Local Abbreviation walkFn := (walkFn Separator helperFuncs).
Local Abbreviation Walk := (Walk Separator helperFuncs).
Local Abbreviation compileTemplates := (compileTemplates Separator helperFuncs).
Local Abbreviation New := (New Separator helperFuncs).

Lemma delims_addFuncmaps o u t :
  leftDelim (addFuncmaps o u t) = leftDelim t /\
  rightDelim (addFuncmaps o u t) = rightDelim t.
Proof.
  unfold Render.addFuncmaps. cbn [Tmpl.Funcs leftDelim rightDelim].
  generalize (Associate u t), (eq_refl : leftDelim (Associate u t) = leftDelim t),
    (eq_refl : rightDelim (Associate u t) = rightDelim t).
  induction (Funcs o) as [| f fs IH]; intros t0 Hl Hr; [now split |].
  cbn [fold_left]. now apply IH.
Qed.

(** [X4] When no matched file takes the root's own name, the set carries
    the delimiters of the options from the first to the last entry of the
    walk, however the walk ends: every matched file is parsed against a set
    that carries them, and the set carries them after every entry.  A matched
    file whose cut into text and actions at those delimiters (at [{{] and
    [}}] where the options leave one empty) parses to a tree with content is
    registered as that tree. *)
Theorem units_parsed_under_configured_delims fs r r' p :
  (forall e, e ∈ fs (Directory (opt r)) ->
             ext (rel e) ∈ Extensions (opt r) ->
             ToSlash Separator (name (rel e) (ext (rel e))) <> Directory (opt r)) ->
  compileTemplates fs r = (r', p) ->
  (exists t, templates r' = Some t /\ delimsOf (opt r) t) /\
  (forall e t,
      delimsOf (opt r) t ->
      let u := ToSlash Separator (name (rel e) (ext (rel e))) in
      u <> Tmpl.Name t ->
      delimsOf (opt r) (addFuncmaps (opt r) u t) /\
      forall t' q, walkFn (opt r) e t = (t', q) -> delimsOf (opt r) t') /\
  (forall e t buf tr,
      delimsOf (opt r) t ->
      ext (rel e) ∈ Extensions (opt r) ->
      ReadFile e = inl buf ->
      let u := ToSlash Separator (name (rel e) (ext (rel e))) in
      let cut :=
        lex (orDefault "{{" (Left (OptDelims (opt r))))
            (orDefault "}}" (Right (OptDelims (opt r)))) false 0 buf in
      u <> Tmpl.Name t ->
      parseTokens (funcs (addFuncmaps (opt r) u t)) u cut = inl tr ->
      holdsContent tr = true ->
      exists t', walkFn (opt r) e t = (t', None) /\
                 Lookup t' u = Some (Some tr) /\ delimsOf (opt r) t').
Proof.
  intros _ H.
  assert (Hadd : forall e t,
             delimsOf (opt r) t ->
             delimsOf (opt r)
               (addFuncmaps (opt r) (ToSlash Separator (name (rel e) (ext (rel e)))) t)).
  { intros e t [Hl Hr]. destruct (delims_addFuncmaps (opt r)
      (ToSlash Separator (name (rel e) (ext (rel e)))) t) as [Hl' Hr'].
    split; congruence. }
  assert (Hparse : forall u buf t t',
             delimsOf (opt r) t -> Parse u buf t = inl t' -> delimsOf (opt r) t').
  { intros u buf t t' [Hl Hr] Hp.
    apply Parse_inl in Hp as (_ & _ & Hl' & Hr' & _). split; congruence. }
  split; [| split].
  - apply (compileTemplates_invariant Separator helperFuncs
             (delimsOf (opt r)) fs r r' p); [exact Hadd | | | exact H].
    + intros u buf t t' Ht _. now apply Hparse.
    + split; reflexivity.
  - intros e t Ht u _. split; [now apply Hadd |].
    intros t' q. unfold Render.walkFn.
    destruct (decide (ext (rel e) ∈ Extensions (opt r))) as [Hx | Hx].
    + rewrite rangeExtensions_match by exact Hx. intros Hc.
      apply (compileFile_cases Separator helperFuncs) in Hc as
          [(err & _ & -> & _) | [(buf & err & _ & _ & -> & _) | (buf & _ & Hp & _)]].
      * exact Ht.
      * now apply Hadd.
      * apply (Hparse _ _ _ _ (Hadd e t Ht) Hp).
    + rewrite rangeExtensions_skip by exact Hx. now intros [= <- <-].
  - intros e t buf tr [Hl Hr] Hx Hread u cut _ Htr _.
    destruct (delims_addFuncmaps (opt r) u t) as [Hl' Hr'].
    assert (Hp : Parse u buf (addFuncmaps (opt r) u t)
                 = inl (mkTemplate
                          (Tmpl.Name (addFuncmaps (opt r) u t))
                          (leftDelim (addFuncmaps (opt r) u t))
                          (rightDelim (addFuncmaps (opt r) u t))
                          (funcs (addFuncmaps (opt r) u t))
                          (<[ u := Some tr ]> (tmpls (addFuncmaps (opt r) u t))))).
    { unfold Parse. rewrite Hl', Hr', Hl, Hr. fold cut. now rewrite Htr. }
    unfold Render.walkFn. rewrite rangeExtensions_match by exact Hx.
    unfold compileFile. rewrite Hread. fold u. rewrite Hp.
    eexists. split; [reflexivity |]. split.
    + unfold Lookup. cbn [tmpls]. apply lookup_insert_eq.
    + split; cbn [leftDelim rightDelim]; congruence.
Qed.

Lemma parseAction_call fm u a fn :
  parseAction fm u a = inl (NCall fn) -> is_Some (fm !! fn).
Proof.
  unfold parseAction. destruct (String.eqb _ "."); [discriminate |].
  destruct (isIdentifier _); [| discriminate].
  destruct (fm !! _) as [f |] eqn:Hf; [| discriminate].
  intros [= <-]. rewrite Hf. eauto.
Qed.

Lemma parseAction_node fm u a n :
  parseAction fm u a = inl n -> n = NDot \/ exists fn, n = NCall fn.
Proof.
  unfold parseAction. destruct (String.eqb _ "."); [intros [= <-]; now left |].
  destruct (isIdentifier _); [| discriminate].
  destruct (fm !! _); [| discriminate]. intros [= <-]. right. eauto.
Qed.

(** The parser accepts a call only of a function of the table. *)
Lemma parseTokens_bound fm u toks tr fn :
  parseTokens fm u toks = inl tr -> NCall fn ∈ tr -> is_Some (fm !! fn).
Proof.
  revert tr. induction toks as [| tok toks IH]; intros tr.
  - intros [= <-] Hin. now apply elem_of_nil in Hin.
  - destruct tok as [s | a | s]; cbn [parseTokens].
    + destruct (parseTokens fm u toks) as [ns | err]; [| discriminate].
      intros [= <-]. destruct (String.eqb s EmptyString); [now apply IH |].
      intros [Hh | Ht]%elem_of_cons; [discriminate | now apply (IH ns)].
    + destruct (parseAction fm u a) as [n | err] eqn:Ha; [| discriminate].
      destruct (parseTokens fm u toks) as [ns | err]; [| discriminate].
      intros [= <-] [Hh | Ht]%elem_of_cons; [| now apply (IH ns)].
      subst n. now apply (parseAction_call fm u a).
    + discriminate.
Qed.

Lemma callsBound_Funcs fm t : callsBound t -> callsBound (Tmpl.Funcs fm t).
Proof.
  intros Ht u tr fn Hu Hin. rewrite lookup_Funcs.
  destruct (fm !! fn); [eauto |]. now apply (Ht u tr).
Qed.

Lemma callsBound_fold_Funcs user t :
  callsBound t -> callsBound (fold_left (fun t funcs => Tmpl.Funcs funcs t) user t).
Proof.
  revert t. induction user as [| f user IH]; intros t Ht; [exact Ht |].
  cbn [fold_left]. now apply IH, callsBound_Funcs.
Qed.

Lemma callsBound_addFuncmaps o u t : callsBound t -> callsBound (addFuncmaps o u t).
Proof.
  intros Ht. unfold Render.addFuncmaps.
  apply callsBound_Funcs, callsBound_fold_Funcs.
  intros v tr fn Hv Hin. cbn [Associate tmpls funcs] in *.
  destruct (decide (u = v)) as [<- | Hne].
  - rewrite lookup_insert_eq in Hv. discriminate.
  - rewrite lookup_insert_ne in Hv by exact Hne. now apply (Ht v tr).
Qed.

Lemma callsBound_Parse u buf t t' :
  callsBound t -> Parse u buf t = inl t' -> callsBound t'.
Proof.
  intros Ht. unfold Parse.
  destruct (parseTokens (funcs t) u _) as [tr |] eqn:Hp; [| discriminate].
  intros [= <-] v tr' fn Hv Hin. cbn [tmpls funcs] in *.
  destruct (decide (u = v)) as [<- | Hne].
  - rewrite lookup_insert_eq in Hv. injection Hv as <-.
    now apply (parseTokens_bound _ _ _ _ _ Hp).
  - rewrite lookup_insert_ne in Hv by exact Hne. now apply (Ht v tr').
Qed.

Lemma execNodes_never_not_defined call (fm : FuncMap) u data ns buf out n fn :
  (forall g, NCall g ∈ ns -> is_Some (fm !! g)) ->
  execNodes call fm u data ns buf <> Some (out, Some (ErrNotDefined n fn)).
Proof.
  revert buf. induction ns as [| nd ns IH]; intros buf Hb; [discriminate |].
  assert (Hrest : forall g, NCall g ∈ ns -> is_Some (fm !! g))
    by (intros g Hg; apply Hb; now right).
  destruct nd as [s | | g]; cbn [execNodes]; try now apply IH.
  destruct (Hb g ltac:(left)) as [f Hf]. rewrite Hf.
  destruct (call f) as [[v [cause |]] |]; [discriminate | now apply IH | discriminate].
Qed.

(** [X5] References are resolved when a unit is parsed and the table only
    grows afterwards, in the walk and under later rebinding: in the set that
    a compilation leaves, however it ended and whatever bundle is added to
    it later, every function a parsed unit calls is bound, and no execution
    ends with the error that a function is not defined. *)
Theorem compiled_set_calls_are_bound fs r r' p :
  compileTemplates fs r = (r', p) ->
  exists t,
    templates r' = Some t /\
    callsBound t /\
    forall later : list FuncMap,
      let t' := fold_left (fun t funcs => Tmpl.Funcs funcs t) later t in
      callsBound t' /\
      forall fuel page data out n fn,
        ExecuteTemplate fuel t' page data <> Some (out, Some (ErrNotDefined n fn)).
Proof.
  intros H.
  destruct (compileTemplates_invariant Separator helperFuncs callsBound fs r r' p)
    as (t & Ht & Hb); [| | | exact H |].
  - intros e t. apply callsBound_addFuncmaps.
  - intros u buf t t' Hb _. now apply callsBound_Parse.
  - intros u tr fn. cbn [Tmpl.Delims Tmpl.New tmpls].
    intros [_ Hu]%lookup_singleton_Some. discriminate.
  - exists t. split; [exact Ht |]. split; [exact Hb |].
    intros later t'. assert (Hb' : callsBound t') by now apply callsBound_fold_Funcs.
    split; [exact Hb' |].
    intros [| k] page data out n fn; [discriminate |].
    cbn [ExecuteTemplate]. destruct (tmpls t' !! page) as [[tr |] |] eqn:Hp;
      [| discriminate | discriminate].
    apply execNodes_never_not_defined. intros g Hg. now apply (Hb' page tr).
Qed.

End CompiledSets.

Lemma units_parsed_under_configured_delims_witness :
  let r := prepareOptions (mkRender Cases.bracketOptions None EmptyString) in
  let r' := fst (compileTemplates "/" Helpers.helperFuncs Cases.bracketed r) in
  View.unit r' "hello" = Some (Some [NText "{{.}} is "; NDot]) /\
  (exists t, templates r' = Some t /\ leftDelim t = "[[" /\ rightDelim t = "]]") /\
  View.response
    (HTML "/" Helpers.helperFuncs 1 Cases.bracketed r' NewRecorder 200 "hello"
          (VString "gophers") [])
  = Some (Some 200, "{{.}} is gophers", None).
Proof.
  intros r r'.
  assert (Hroot : forall e, e ∈ Cases.bracketed (Directory (opt r)) ->
                            ext (rel e) ∈ Extensions (opt r) ->
                            ToSlash "/" (name (rel e) (ext (rel e))) <> Directory (opt r)).
  { apply (proj1 (Forall_forall
                     (fun e => ext (rel e) ∈ Extensions (opt r) ->
                               ToSlash "/" (name (rel e) (ext (rel e))) <> Directory (opt r))
                     (Cases.bracketed (Directory (opt r))))).
    by_evaluation. }
  destruct (units_parsed_under_configured_delims "/" Helpers.helperFuncs
              Cases.bracketed r r' None Hroot ltac:(vm_compute; reflexivity))
    as ((t & Ht & Hl & Hr) & _).
  split; [vm_compute; reflexivity |]. split.
  - exists t. split; [exact Ht |]. split; [exact Hl | exact Hr].
  - vm_compute. reflexivity.
Defined.

Lemma compiled_set_calls_are_bound_witness :
  let r := prepareOptions
             (mkRender (Fixtures.options "templates" EmptyString [] [] false)
                       None EmptyString) in
  let r' := fst (compileTemplates "/" Helpers.helperFuncs Cases.leaky r) in
  exists t,
    templates r' = Some t /\
    forall out n fn,
      ExecuteTemplate 3
        (Tmpl.Funcs {[ "yield" := FnExecute "hello" (VString "x") ]} t)
        "other" (VString "y")
      <> Some (out, Some (ErrNotDefined n fn)).
Proof.
  intros r r'.
  destruct (compiled_set_calls_are_bound "/" Helpers.helperFuncs Cases.leaky r r'
              None ltac:(vm_compute; reflexivity)) as (t & Ht & _ & Hlater).
  exists t. split; [exact Ht |]. intros out n fn.
  destruct (Hlater [ {[ "yield" := FnExecute "hello" (VString "x") ]} ]) as (_ & Hexec).
  apply Hexec.
Defined.

(** ** Collisions and unreadable files *)

Section Collisions.

Variable Separator : ascii.
Variable helperFuncs : FuncMap.

Local Abbreviation addFuncmaps := (addFuncmaps helperFuncs).
Local Abbreviation walkFn := (walkFn Separator helperFuncs).
Local Abbreviation Walk := (Walk Separator helperFuncs).
Local Abbreviation compileTemplates := (compileTemplates Separator helperFuncs).

Lemma Parse_treeOf u buf t :
  Parse u buf t
  = match treeOf t u buf with
    | inl tr =>
        inl (mkTemplate (Tmpl.Name t) (leftDelim t) (rightDelim t) (funcs t)
                        (<[ u := Some tr ]> (tmpls t)))
    | inr err => inr err
    end.
Proof. reflexivity. Qed.

(** [X6] The walk is last-wins on names: when a matched file, of a name
    other than the root's own, parses to a tree with content, the unit under
    its name is the tree of that file, whatever an earlier entry of the walk
    registered under the same name, and no other name changes. *)
Theorem later_file_replaces_unit o (before : list Entry) e t0 t1 buf tr :
  Walk o before t0 = (t1, None) ->
  ext (rel e) ∈ Extensions o ->
  ReadFile e = inl buf ->
  let u := ToSlash Separator (name (rel e) (ext (rel e))) in
  u <> Tmpl.Name t1 ->
  treeOf (addFuncmaps o u t1) u buf = inl tr ->
  holdsContent tr = true ->
  exists t',
    Walk o (before ++ [e])%list t0 = (t', None) /\
    Lookup t' u = Some (Some tr) /\
    forall v, v <> u -> Lookup t' v = Lookup t1 v.
Proof.
  intros Hb Hx Hr u _ Htr _.
  eexists. split; [| split].
  - rewrite Walk_app, Hb. cbn [Render.Walk]. unfold Render.walkFn.
    rewrite rangeExtensions_match by exact Hx.
    unfold compileFile. rewrite Hr. fold u. rewrite Parse_treeOf, Htr. reflexivity.
  - unfold Lookup. cbn [tmpls]. apply lookup_insert_eq.
  - intros v Hv. unfold Lookup. cbn [tmpls].
    rewrite lookup_insert_ne by congruence. rewrite tmpls_addFuncmaps.
    now rewrite lookup_insert_ne by congruence.
Qed.

(** [X7] A matched entry that cannot be read, a directory included, ends
    compilation with a panic that carries the read error, before a unit is
    registered for it: the renderer holds the fresh set as the entries
    before it left it, and the entries after it are not visited. *)
Theorem unreadable_file_panics_before_registration
        (fs : FileSystem) (r : Render.Render) (before after : list Entry)
        (e : Entry) (t1 : Template) (err : error) :
  let o := opt r in
  let fresh := Tmpl.Delims (Left (OptDelims o)) (Right (OptDelims o))
                           (Tmpl.New (Directory o)) in
  fs (Directory o) = (before ++ e :: after)%list ->
  Walk o before fresh = (t1, None) ->
  ext (rel e) ∈ Extensions o ->
  ReadFile e = inr err ->
  compileTemplates fs r = (setTemplates (Some t1) r, Some err).
Proof.
  intros o fresh Hfs Hb Hx Hr.
  unfold Render.compileTemplates. fold o. fold fresh. rewrite Hfs.
  rewrite (Walk_panic Separator helperFuncs o before after e fresh t1 t1 err Hb).
  - reflexivity.
  - unfold Render.walkFn. rewrite rangeExtensions_match by exact Hx.
    unfold compileFile. now rewrite Hr.
Qed.

End Collisions.

Lemma later_file_replaces_unit_witness :
  let o := Fixtures.options "templates" EmptyString [".html"; ".tmpl"] [] false in
  let fresh := Tmpl.Delims EmptyString EmptyString (Tmpl.New "templates") in
  let before := [mkEntry "templates" "." Dir;
                 mkEntry "templates/a.html" "a.html" (File "from html")] in
  let e := mkEntry "templates/a.tmpl" "a.tmpl" (File "from tmpl") in
  Lookup (fst (Walk "/" Helpers.helperFuncs o before fresh)) "a"
  = Some (Some [NText "from html"]) /\
  exists t',
    Walk "/" Helpers.helperFuncs o (before ++ [e])%list fresh = (t', None) /\
    Lookup t' "a" = Some (Some [NText "from tmpl"]).
Proof.
  intros o fresh before e.
  split; [vm_compute; reflexivity |].
  assert (Hx : ext (rel e) ∈ Extensions o) by by_evaluation.
  destruct (later_file_replaces_unit "/" Helpers.helperFuncs o before e fresh
              (fst (Walk "/" Helpers.helperFuncs o before fresh))
              "from tmpl" [NText "from tmpl"]
              ltac:(vm_compute; reflexivity) Hx eq_refl
              ltac:(vm_compute; discriminate)
              ltac:(vm_compute; reflexivity) eq_refl) as (t' & Hw & Hu & _).
  exists t'. split; [exact Hw | exact Hu].
Defined.

Lemma unreadable_file_witness :
  let r := prepareOptions
             (mkRender (Fixtures.options "templates" EmptyString [] [] false)
                       None EmptyString) in
  let after := compileTemplates "/" Helpers.helperFuncs Cases.unreadable r in
  snd after = Some (Errorf "open templates/b.tmpl: permission denied") /\
  View.unit (fst after) "a" = Some (Some [NText "A"]) /\
  View.unit (fst after) "b" = None /\
  View.unit (fst after) "c" = None.
Proof.
  intros r after.
  pose (o := opt r).
  pose (fresh := Tmpl.Delims (Left (OptDelims o)) (Right (OptDelims o))
                             (Tmpl.New (Directory o))).
  pose (before := [mkEntry "templates" "." Dir;
                   mkEntry "templates/a.tmpl" "a.tmpl" (File "A")]).
  pose (e := mkEntry "templates/b.tmpl" "b.tmpl"
                     (Unreadable "open templates/b.tmpl: permission denied")).
  assert (Hx : ext (rel e) ∈ Extensions (opt r)) by by_evaluation.
  pose proof (unreadable_file_panics_before_registration
                "/" Helpers.helperFuncs Cases.unreadable r before
                [mkEntry "templates/c.tmpl" "c.tmpl" (File "C")] e
                (fst (Walk "/" Helpers.helperFuncs o before fresh))
                (Errorf "open templates/b.tmpl: permission denied")
                ltac:(vm_compute; reflexivity) ltac:(vm_compute; reflexivity)
                Hx eq_refl) as Hc.
  unfold after. rewrite Hc. cbn [fst snd].
  split; [reflexivity |]. repeat split; vm_compute; reflexivity.
Defined.

(** ** Calls on a constructed renderer *)

Section Calls.

Variable Separator : ascii.
Variable helperFuncs : FuncMap.

Local Abbreviation Walk := (Walk Separator helperFuncs).
Local Abbreviation compileTemplates := (compileTemplates Separator helperFuncs).
Local Abbreviation HTML := (HTML Separator helperFuncs).
Local Abbreviation New := (New Separator helperFuncs).
Local Abbreviation staged := (View.staged Separator helperFuncs).

Lemma compileTemplates_templates fs r r' p :
  compileTemplates fs r = (r', p) -> exists t, templates r' = Some t.
Proof.
  unfold Render.compileTemplates. destruct (Render.Walk _ _ _ _ _) as [t q].
  intros [= <- <-]. now exists t.
Qed.

Lemma staged_opt fs r name binding htmlOpt r0 p :
  staged fs r name binding htmlOpt = (r0, p) ->
  opt r0 = opt r /\ compiledCharset r0 = compiledCharset r.
Proof.
  unfold View.staged.
  destruct (if IsDevelopment (opt r) then compileTemplates fs r else (r, None))
    as [r1 q] eqn:Hc.
  assert (Ho : opt r1 = opt r /\ compiledCharset r1 = compiledCharset r).
  { destruct (IsDevelopment (opt r)).
    - now apply (compileTemplates_opt Separator helperFuncs fs r r1 q).
    - now injection Hc as <- <-. }
  destruct q as [q |]; [now intros [= <- <-] |].
  destruct (0 <? _)%nat; [| now intros [= <- <-]].
  unfold addYield. destruct (templates r1); now intros [= <- <-].
Qed.

(** [X8] A call for a name that the set does not hold answers with status
    500 and the message that the name is undefined; a call for a name that is
    registered but not parsed (the root's own name, or the unit at which a
    recompilation failed) answers that the template is incomplete.  Neither
    is a panic. *)
Theorem missing_template_answers_undefined
        (fuel : nat) (fs : FileSystem) (r : Render.Render) (w : ResponseWriter)
        (status : Z) (name : string) (binding : value)
        (htmlOpt : list HTMLOptions) (r0 : Render.Render) (t : Template) :
  staged fs r name binding htmlOpt = (r0, None) ->
  templates r0 = Some t ->
  (0 < fuel)%nat ->
  let target := View.target r name htmlOpt in
  (Lookup t target = None ->
   HTML fuel fs r w status name binding htmlOpt
   = Some (r0, Http.Error w (Tmpl.Error (ErrUndefined target))
                          StatusInternalServerError, None)) /\
  (Lookup t target = Some None ->
   HTML fuel fs r w status name binding htmlOpt
   = Some (r0, Http.Error w (Tmpl.Error (ErrIncomplete target))
                          StatusInternalServerError, None)).
Proof.
  intros Hs Ht Hfuel target.
  destruct fuel as [| k]; [lia |].
  split; intros Hl; rewrite (HTML_staged Separator helperFuncs), Hs;
    unfold render, execute; rewrite Ht; fold target;
    cbn [ExecuteTemplate]; unfold Lookup in Hl; now rewrite Hl.
Qed.

Lemma Walk_skips_all o (entries : list Entry) t :
  (forall e, e ∈ entries -> ext (rel e) ∉ Extensions o) ->
  Walk o entries t = (t, None).
Proof.
  induction entries as [| e entries IH]; intros H; [reflexivity |].
  cbn [Render.Walk]. unfold walkFn.
  rewrite rangeExtensions_skip by (apply H; now left).
  apply IH. intros e' He'. apply H. now right.
Qed.

(** [X9] Over a tree in which no entry bears a configured extension (a
    missing or empty directory included) construction succeeds, whatever the
    files hold; the renderer's set holds the root alone, and outside
    development mode every call for another name answers with status 500 that
    the name is undefined. *)
Theorem New_without_templates (fs : FileSystem) (options : Options) :
  let r0 := prepareOptions (mkRender options None EmptyString) in
  let fresh := Tmpl.Delims (Left (OptDelims (opt r0))) (Right (OptDelims (opt r0)))
                           (Tmpl.New (Directory (opt r0))) in
  (forall e, e ∈ fs (Directory (opt r0)) -> ext (rel e) ∉ Extensions (opt r0)) ->
  let r := setTemplates (Some fresh) r0 in
  New fs options = inl r /\
  (forall u, View.unit r u = if decide (Directory (opt r0) = u) then Some None else None) /\
  (forall fuel fs' w status page binding,
      IsDevelopment options = false ->
      Layout options = EmptyString ->
      page <> Directory (opt r0) ->
      (0 < fuel)%nat ->
      HTML fuel fs' r w status page binding []
      = Some (r, Http.Error w (Tmpl.Error (ErrUndefined page))
                            StatusInternalServerError, None)).
Proof.
  intros r0 fresh Hskip r.
  assert (Hunits : forall u, View.unit r u
                             = if decide (Directory (opt r0) = u) then Some None else None).
  { intros u. unfold View.unit, r. cbn [templates setTemplates mbind option_bind].
    unfold Lookup, fresh. cbn [Tmpl.Delims Tmpl.New tmpls].
    destruct (decide (Directory (opt r0) = u)) as [<- | Hne].
    - apply lookup_singleton_eq.
    - now apply lookup_singleton_ne. }
  split; [| split; [exact Hunits |]].
  - unfold Render.New. fold r0. unfold Render.compileTemplates. fold fresh.
    now rewrite (Walk_skips_all _ _ _ Hskip).
  - intros fuel fs' w status page binding Hdev Hlay Hpage Hfuel.
    assert (Hdev' : IsDevelopment (opt r) = false).
    { unfold r, r0. destruct options. exact Hdev. }
    assert (Hlay' : Layout (opt r) = EmptyString).
    { unfold r, r0. destruct options. exact Hlay. }
    assert (Hs : staged fs' r page binding [] = (r, None)).
    { unfold View.staged. rewrite Hdev'. cbn [prepareHTMLOptions HTMLLayout].
      now rewrite Hlay'. }
    assert (Htarget : View.target r page [] = page).
    { unfold View.target. cbn [prepareHTMLOptions HTMLLayout]. now rewrite Hlay'. }
    assert (Hpage' : tmpls fresh !! page = None).
    { unfold fresh. cbn [Tmpl.Delims Tmpl.New tmpls].
      apply lookup_singleton_ne. congruence. }
    destruct fuel as [| k]; [lia |].
    rewrite (HTML_staged Separator helperFuncs), Hs, Htarget.
    unfold render, execute, r. cbn [templates setTemplates ExecuteTemplate].
    now rewrite Hpage'.
Qed.

End Calls.

Lemma missing_template_witness :
  let r := View.constructed
             (New "/" Helpers.helperFuncs Fixtures.basic
                  (Fixtures.options "templates" EmptyString [] [] false)) in
  View.response
    (HTML "/" Helpers.helperFuncs 1 Fixtures.basic r NewRecorder 200 "nope"
          (VString "gophers") [])
  = Some (Some 500, Tmpl.Error (ErrUndefined "nope") +:+ newline, None) /\
  View.response
    (HTML "/" Helpers.helperFuncs 1 Fixtures.basic r NewRecorder 200 "templates"
          (VString "gophers") [])
  = Some (Some 500, Tmpl.Error (ErrIncomplete "templates") +:+ newline, None).
Proof.
  intros r.
  pose (t := default (Tmpl.New EmptyString) (templates r)).
  destruct (missing_template_answers_undefined
              "/" Helpers.helperFuncs 1 Fixtures.basic r NewRecorder 200 "nope"
              (VString "gophers") [] r t eq_refl ltac:(vm_compute; reflexivity)
              ltac:(lia)) as (Hmissing & _).
  destruct (missing_template_answers_undefined
              "/" Helpers.helperFuncs 1 Fixtures.basic r NewRecorder 200 "templates"
              (VString "gophers") [] r t eq_refl ltac:(vm_compute; reflexivity)
              ltac:(lia)) as (_ & Hincomplete).
  rewrite (Hmissing ltac:(vm_compute; reflexivity)).
  rewrite (Hincomplete ltac:(vm_compute; reflexivity)).
  split; vm_compute; reflexivity.
Defined.

Lemma New_without_templates_witness :
  exists r,
    New "/" Helpers.helperFuncs Cases.noMatch
        (Fixtures.options EmptyString EmptyString [] [] false) = inl r /\
    View.unit r "readme" = None /\
    View.response
      (HTML "/" Helpers.helperFuncs 1 Cases.noMatch r NewRecorder 200 "readme"
            (VString "gophers") [])
    = Some (Some 500, Tmpl.Error (ErrUndefined "readme") +:+ newline, None).
Proof.
  destruct (New_without_templates "/" Helpers.helperFuncs Cases.noMatch
              (Fixtures.options EmptyString EmptyString [] [] false))
    as (Hnew & Hunits & Hcalls).
  { intros e He. apply (bool_decide_unpack _).
    revert e He. apply Forall_forall. by_evaluation. }
  eexists. split; [exact Hnew |]. split.
  - rewrite Hunits. reflexivity.
  - rewrite (Hcalls 1%nat Cases.noMatch NewRecorder 200 "readme" (VString "gophers")
               eq_refl eq_refl ltac:(discriminate) ltac:(lia)).
    vm_compute. reflexivity.
Defined.

(** ** The state a call leaves behind *)

Section Aftermath.

Variable Separator : ascii.
Variable helperFuncs : FuncMap.

Local Abbreviation compileTemplates := (compileTemplates Separator helperFuncs).
Local Abbreviation HTML := (HTML Separator helperFuncs).
Local Abbreviation New := (New Separator helperFuncs).
Local Abbreviation staged := (View.staged Separator helperFuncs).

Lemma New_inl fs options r :
  New fs options = inl r ->
  compileTemplates fs (prepareOptions (mkRender options None EmptyString)) = (r, None).
Proof.
  unfold Render.New. destruct (compileTemplates fs _) as [r0 [q |]]; [discriminate |].
  now intros [= <-].
Qed.

(** [X10] [New] returns a renderer with a set and with the prepared
    options.  A call with a status that [WriteHeader] accepts (100 to 999),
    on a renderer that has a set or that is in development mode, leaves a
    renderer that has a set and the same options; the only panic such a call
    can end in is that of the recompilation of development mode, and then the
    response is untouched.  So a renderer that [New] returned never runs
    into a nil set, whatever such calls are made on it. *)
Theorem calls_panic_only_in_recompilation :
  (forall fs options r,
      New fs options = inl r ->
      templates r <> None /\
      opt r = opt (prepareOptions (mkRender options None EmptyString)) /\
      compiledCharset r
      = compiledCharset (prepareOptions (mkRender options None EmptyString))) /\
  (forall fuel fs r w status name binding htmlOpt r' w' p,
      IsDevelopment (opt r) = true \/ templates r <> None ->
      100 <= status <= 999 ->
      HTML fuel fs r w status name binding htmlOpt = Some (r', w', p) ->
      templates r' <> None /\
      opt r' = opt r /\
      compiledCharset r' = compiledCharset r /\
      forall e, p = Some e ->
                IsDevelopment (opt r) = true /\
                compileTemplates fs r = (r', Some e) /\
                w' = w).
Proof.
  split.
  - intros fs options r Hnew. apply New_inl in Hnew.
    destruct (compileTemplates_templates _ _ _ _ _ _ Hnew) as (t & Ht).
    destruct (compileTemplates_opt _ _ _ _ _ _ Hnew) as (Ho & Hc).
    rewrite Ht. split; [discriminate | split; [exact Ho | exact Hc]].
  - intros fuel fs r w status name binding htmlOpt r' w' p Hset _.
    rewrite (HTML_staged Separator helperFuncs).
    destruct (staged fs r name binding htmlOpt) as [r0 q] eqn:Hs.
    destruct (staged_opt Separator helperFuncs _ _ _ _ _ _ _ Hs) as (Ho & Hc).
    unfold View.staged in Hs.
    destruct (if IsDevelopment (opt r) then compileTemplates fs r else (r, None))
      as [r1 q1] eqn:Hc1.
    assert (Ht1 : exists t1, templates r1 = Some t1).
    { destruct (IsDevelopment (opt r)) eqn:Hdev.
      - now apply (compileTemplates_templates _ _ _ _ _ _ Hc1).
      - injection Hc1 as <- <-. destruct Hset as [Hd | Hn]; [discriminate |].
        destruct (templates r) as [t1 |]; [eauto | congruence]. }
    destruct Ht1 as (t1 & Ht1).
    destruct q1 as [e1 |].
    + injection Hs as <- <-. intros [= <- <- <-].
      rewrite Ht1. split; [discriminate | split; [exact Ho | split; [exact Hc |]]].
      intros e [= <-]. destruct (IsDevelopment (opt r)); [| discriminate].
      split; [reflexivity |]. split; [exact Hc1 | reflexivity].
    + assert (Hq : q = None /\ exists t0, templates r0 = Some t0).
      { destruct (0 <? _)%nat.
        - unfold addYield in Hs. rewrite Ht1 in Hs. injection Hs as <- <-.
          split; [reflexivity |]. cbn [templates setTemplates]. eauto.
        - injection Hs as <- <-. eauto. }
      destruct Hq as (-> & t0 & Ht0).
      unfold render, execute. rewrite Ht0.
      destruct (ExecuteTemplate fuel t0 _ binding) as [[out [err |]] |];
        [| | discriminate]; intros [= <- <- <-]; rewrite Ht0;
        (split; [discriminate | split; [exact Ho | split; [exact Hc |]]]);
        intros e; discriminate.
Qed.

(** [X11] Outside development mode the rebinding made for a layout outlives
    the call: the renderer left behind is the one given with [yield] bound to
    the closure over the requested name and binding and [current] to that
    name, and a later call without a layout runs on that renderer as it is. *)
Theorem layout_rebinding_outlives_call
        (fuel : nat) (fs : FileSystem) (r : Render.Render) (t : Template)
        (w : ResponseWriter) (status : Z) (name : string) (binding : value)
        (htmlOpt : list HTMLOptions) (r' : Render.Render) (w' : ResponseWriter)
        (p : option error) :
  IsDevelopment (opt r) = false ->
  templates r = Some t ->
  HTMLLayout (prepareHTMLOptions r htmlOpt) <> EmptyString ->
  HTML fuel fs r w status name binding htmlOpt = Some (r', w', p) ->
  p = None /\
  r' = setTemplates
         (Some (Tmpl.Funcs (<[ "yield" := FnExecute name binding ]>
                            (<[ "current" := FnReturn (VString name) None ]> ∅)) t)) r /\
  View.function r' "yield" = Some (FnExecute name binding) /\
  View.function r' "current" = Some (FnReturn (VString name) None) /\
  (forall v, View.unit r' v = View.unit r v) /\
  (forall fuel2 fs2 w2 status2 page binding2 o rest,
      HTMLLayout o = EmptyString ->
      HTML fuel2 fs2 r' w2 status2 page binding2 (o :: rest)
      = render fuel2 r' w2 status2 page binding2).
Proof.
  intros Hdev Ht Hl Hcall.
  set (t' := Tmpl.Funcs (<[ "yield" := FnExecute name binding ]>
                         (<[ "current" := FnReturn (VString name) None ]> ∅)) t).
  assert (Hs : staged fs r name binding htmlOpt = (setTemplates (Some t') r, None)).
  { unfold View.staged. rewrite Hdev, (layout_assigned _ Hl).
    unfold addYield. now rewrite Ht. }
  rewrite (HTML_staged Separator helperFuncs), Hs in Hcall.
  pose proof (render_state _ _ _ _ _ _ _ _ _ Hcall) as ->.
  assert (Hp : p = None).
  { unfold render, execute in Hcall. cbn [templates setTemplates] in Hcall.
    destruct (ExecuteTemplate fuel t' _ binding) as [[out [err |]] |];
      [| | discriminate]; now injection Hcall as _ <-. }
  split; [exact Hp |]. split; [reflexivity |].
  split; [| split; [| split]].
  - unfold View.function. cbn [templates setTemplates mbind option_bind].
    unfold t'. rewrite lookup_Funcs. now rewrite lookup_insert_eq.
  - unfold View.function. cbn [templates setTemplates mbind option_bind].
    unfold t'. rewrite lookup_Funcs.
    rewrite lookup_insert_ne by discriminate. now rewrite lookup_insert_eq.
  - intros v. unfold View.unit. cbn [templates setTemplates mbind option_bind].
    now rewrite Ht.
  - intros fuel2 fs2 w2 status2 page binding2 o rest Ho.
    unfold Render.HTML. cbn [opt setTemplates]. rewrite Hdev.
    cbn [prepareHTMLOptions]. now rewrite Ho.
Qed.

End Aftermath.

Lemma calls_panic_only_in_recompilation_witness :
  exists r,
    New "/" Helpers.helperFuncs Fixtures.basic
        (Fixtures.options "templates" "layout" [] [] false) = inl r /\
    templates r <> None /\
    templates
      (View.after r
         (HTML "/" Helpers.helperFuncs 2 Fixtures.broken r NewRecorder 200 "hello"
               (VString "gophers") [])) <> None.
Proof.
  destruct (calls_panic_only_in_recompilation "/" Helpers.helperFuncs)
    as (Hnew & Hcall).
  pose (r := View.constructed
               (New "/" Helpers.helperFuncs Fixtures.basic
                    (Fixtures.options "templates" "layout" [] [] false))).
  assert (Hr : New "/" Helpers.helperFuncs Fixtures.basic
                   (Fixtures.options "templates" "layout" [] [] false) = inl r)
    by (vm_compute; reflexivity).
  destruct (Hnew _ _ _ Hr) as (Hset & _).
  exists r. split; [exact Hr |]. split; [exact Hset |].
  destruct (HTML "/" Helpers.helperFuncs 2 Fixtures.broken r NewRecorder 200 "hello"
                 (VString "gophers") []) as [[[r' w'] p] |] eqn:Hc; [| exact Hset].
  cbn [View.after].
  assert (Hstatus : 100 <= 200 <= 999) by lia.
  now destruct (Hcall _ _ _ _ _ _ _ _ _ _ _ (or_intror Hset) Hstatus Hc).
Defined.

(** A request under the layout with one binding, then a request for a
    page that calls [yield] with per-call options that switch the layout off:
    the second response carries the first request's page and binding. *)
Lemma layout_rebinding_outlives_call_witness :
  let r := View.constructed
             (New "/" Helpers.helperFuncs Cases.leaky
                  (Fixtures.options "templates" "layout" [] [] false)) in
  let first := HTML "/" Helpers.helperFuncs 2 Cases.leaky r NewRecorder 200 "hello"
                    (VString "first") [] in
  View.response first = Some (Some 200, "<h1>Hello first</h1>", None) /\
  View.response
    (HTML "/" Helpers.helperFuncs 2 Cases.leaky (View.after r first) NewRecorder 200
          "other" (VString "second") [mkHTMLOptions EmptyString])
  = Some (Some 200, "other: Hello first (hello)", None).
Proof.
  intros r first.
  split; [vm_compute; reflexivity |].
  pose (t := default (Tmpl.New EmptyString) (templates r)).
  destruct (first) as [[[r' w'] p] |] eqn:Hfirst; [| vm_compute in Hfirst; discriminate].
  destruct (layout_rebinding_outlives_call
              "/" Helpers.helperFuncs 2 Cases.leaky r t NewRecorder 200 "hello"
              (VString "first") [] r' w' p eq_refl ltac:(vm_compute; reflexivity)
              ltac:(vm_compute; discriminate) Hfirst)
    as (_ & -> & _ & _ & _ & Hlater).
  cbn [View.after].
  rewrite (Hlater 2%nat Cases.leaky NewRecorder 200 "other" (VString "second")
                  (mkHTMLOptions EmptyString) [] eq_refl).
  vm_compute. reflexivity.
Defined.

(** ** The response of a successful call *)

Lemma response_written (w : ResponseWriter) (status : Z) (key value out : string) :
  code w = None ->
  Write out (WriteHeader status (HeaderSet key value w))
  = mkResponse (<[ key := value ]> (header w)) (Some status) (body w +:+ out).
Proof.
  intros Hc. unfold Write, WriteHeader, HeaderSet. cbn [code header body].
  rewrite Hc. reflexivity.
Qed.

(** [X12] On a renderer that [New] returned, a call whose execution
    succeeds, made with a status of a final response (200 to 999) on a
    response to which no status was sent yet, sends the status it was given,
    sets the content type to the configured HTML content
    type ([text/html] when none is configured) followed by [; charset=] and
    the configured charset ([UTF-8] when none is configured), leaves the other
    headers as they are, and adds the buffer to the body. *)
Theorem constructed_renderer_answers_with_status_and_content_type
        (Separator : ascii) (helperFuncs : FuncMap)
        (fs : FileSystem) (options : Options) (r : Render.Render)
        (fuel : nat) (fs' : FileSystem) (w : ResponseWriter) (status : Z)
        (name : string) (binding : value) (htmlOpt : list HTMLOptions)
        (r0 : Render.Render) (out : string) :
  New Separator helperFuncs fs options = inl r ->
  View.staged Separator helperFuncs fs' r name binding htmlOpt = (r0, None) ->
  execute fuel r0 (View.target r name htmlOpt) binding = Some (inl (out, None)) ->
  code w = None ->
  200 <= status <= 999 ->
  let contentType :=
    match HTMLContentType options with
    | EmptyString => "text/html"
    | given => given
    end in
  let charset :=
    match Charset options with
    | EmptyString => "UTF-8"
    | given => given
    end in
  HTML Separator helperFuncs fuel fs' r w status name binding htmlOpt
  = Some (r0,
          mkResponse
            (<[ "Content-Type" := contentType +:+ "; charset=" +:+ charset ]> (header w))
            (Some status) (body w +:+ out),
          None).
Proof.
  intros Hnew Hs He Hcode _ contentType charset.
  rewrite HTML_staged, Hs. unfold render. rewrite He.
  rewrite (response_written _ _ _ _ _ Hcode).
  destruct (staged_opt _ _ _ _ _ _ _ _ _ Hs) as (-> & ->).
  apply New_inl in Hnew.
  destruct (compileTemplates_opt _ _ _ _ _ _ Hnew) as (-> & ->).
  unfold contentType, charset.
  destruct options as [dir lay exts fns dl cs ij ix pj px ct dev].
  destruct cs as [| c1 cs], ct as [| t1 ct]; reflexivity.
Qed.

Lemma constructed_renderer_answers_witness :
  let r := View.constructed
             (New "/" Helpers.helperFuncs Fixtures.basic
                  (Fixtures.options "templates" EmptyString [] [] false)) in
  exists w',
    HTML "/" Helpers.helperFuncs 1 Fixtures.basic r NewRecorder 299 "hello"
         (VString "gophers") []
    = Some (r, w', None) /\
    code w' = Some 299 /\
    header w' !! "Content-Type" = Some "text/html; charset=UTF-8" /\
    body w' = "Hello gophers".
Proof.
  intros r.
  pose proof (constructed_renderer_answers_with_status_and_content_type
                "/" Helpers.helperFuncs Fixtures.basic
                (Fixtures.options "templates" EmptyString [] [] false) r
                1 Fixtures.basic NewRecorder 299 "hello" (VString "gophers") []
                r "Hello gophers"
                ltac:(vm_compute; reflexivity) eq_refl
                ltac:(vm_compute; reflexivity) eq_refl ltac:(lia)) as Hcall.
  cbv zeta in Hcall.
  eexists. split; [exact Hcall |].
  split; [reflexivity |]. split; [| reflexivity].
  cbn [header]. apply lookup_insert_eq.
Defined.

(** ** The other formats *)

Lemma append_assoc_go (a b c : string) : (a +:+ b) +:+ c = a +:+ b +:+ c.
Proof.
  induction a as [| x a IH]; [reflexivity |].
  rewrite !append_cons. now f_equal.
Qed.

Lemma HeaderGet_given (key : string) (w : ResponseWriter) :
  HeaderGet key w <> EmptyString -> header w !! key = Some (HeaderGet key w).
Proof. unfold HeaderGet. destruct (header w !! key); [reflexivity | now intros []]. Qed.

Lemma body_writePrefix (prefix : string) (w : ResponseWriter) :
  body (writePrefix prefix w) = body w +:+ prefix.
Proof.
  unfold writePrefix. destruct prefix as [| c prefix].
  - cbn. now rewrite append_empty_r.
  - cbn [String.length Nat.ltb Nat.leb]. apply body_Write.
Qed.

Lemma header_Write (b : string) (w : ResponseWriter) : header (Write b w) = header w.
Proof. unfold Write, WriteHeader. destruct (code w); reflexivity. Qed.

Lemma header_WriteHeader (status : Z) (w : ResponseWriter) :
  header (WriteHeader status w) = header w.
Proof. unfold WriteHeader. destruct (code w); reflexivity. Qed.

Lemma header_writePrefix (prefix : string) (w : ResponseWriter) :
  header (writePrefix prefix w) = header w.
Proof. unfold writePrefix. destruct (0 <? _)%nat; [apply header_Write | reflexivity]. Qed.

Lemma code_Write_sent (b : string) (w : ResponseWriter) (status : Z) :
  code w = Some status -> code (Write b w) = Some status.
Proof. intros Hc. unfold Write, WriteHeader. now rewrite Hc. Qed.

Lemma code_WriteHeader_first (status : Z) (w : ResponseWriter) :
  code w = None -> code (WriteHeader status w) = Some status.
Proof. intros Hc. unfold WriteHeader. now rewrite Hc. Qed.

Lemma code_writePrefix_sent (prefix : string) (w : ResponseWriter) (status : Z) :
  code w = Some status -> code (writePrefix prefix w) = Some status.
Proof.
  intros Hc. unfold writePrefix.
  destruct (0 <? _)%nat; [now apply code_Write_sent | exact Hc].
Qed.

(** [X13] With a status of a final response (200 to 999), [Data] keeps a
    content type that the handler has set and sets [application/octet-stream]
    when there is none or an empty one; it touches no other header, adds
    exactly the bytes to the body, and sends the status when none was sent
    before. *)
Theorem Data_keeps_a_given_content_type (w : ResponseWriter) (status : Z) (v : string) :
  200 <= status <= 999 ->
  let given := HeaderGet Render.ContentType w in
  let w' := RenderData w status v in
  header w' !! Render.ContentType
  = Some (if String.eqb given EmptyString then ContentBinary else given) /\
  (given <> EmptyString -> header w' = header w) /\
  (forall key, key <> Render.ContentType -> header w' !! key = header w !! key) /\
  body w' = body w +:+ v /\
  (code w = None -> code w' = Some status).
Proof.
  intros _ given w'. unfold w', RenderData. fold given.
  rewrite header_Write, header_WriteHeader, body_Write, body_WriteHeader.
  destruct (String.eqb_spec given EmptyString) as [He | Hne].
  - split; [apply lookup_insert_eq |]. split; [congruence |].
    split; [intros key Hk; cbn [HeaderSet header]; now apply lookup_insert_ne |].
    split; [reflexivity |].
    intros Hc. apply code_Write_sent, code_WriteHeader_first. exact Hc.
  - split; [now apply HeaderGet_given |]. split; [reflexivity |].
    split; [reflexivity |]. split; [reflexivity |].
    intros Hc. apply code_Write_sent, code_WriteHeader_first. exact Hc.
Qed.

Lemma Data_witness :
  let css := HeaderSet "Content-Type" "text/css" NewRecorder in
  header (RenderData css 200 "html{color:red}") !! "Content-Type" = Some "text/css" /\
  header (RenderData NewRecorder 200 "raw") !! "Content-Type"
  = Some "application/octet-stream" /\
  body (RenderData css 200 "html{color:red}") = "html{color:red}".
Proof.
  intros css.
  destruct (Data_keeps_a_given_content_type css 200 "html{color:red}" ltac:(lia))
    as (Hct & Hsame & _ & Hbody & _).
  destruct (Data_keeps_a_given_content_type NewRecorder 200 "raw" ltac:(lia))
    as (Hbin & _).
  split; [exact Hct |]. split; [exact Hbin | exact Hbody].
Defined.

Section OtherFormats.

Variable any : Type.
Variable jsonMarshal : any -> string + error.
Variable jsonMarshalIndent : any -> string -> string -> string + error.
Variable xmlMarshal : any -> string + error.
Variable xmlMarshalIndent : any -> string -> string -> string + error.
Variable assertBytes : any -> string + error.

Local Abbreviation RenderJSON := (RenderJSON any jsonMarshal jsonMarshalIndent).
Local Abbreviation RenderXML := (RenderXML any xmlMarshal xmlMarshalIndent).
Local Abbreviation DataRender := (DataRender any assertBytes).
Local Abbreviation JSONRender := (JSONRender any jsonMarshal jsonMarshalIndent).
Local Abbreviation XMLRender := (XMLRender any xmlMarshal xmlMarshalIndent).

(** [X14] The [Data] renderer of [engine.go] whose head carries
    [application/octet-stream] and a status of a final response (200 to 999)
    answers a value that holds bytes exactly as the
    renderer's [Data] method does.  For any other value it panics at the type
    assertion after the head is written: the status is sent and the body is
    untouched. *)
Theorem engine_Data_agrees_and_panics_after_the_head
        (d : Data) (w : ResponseWriter) (v : any) :
  Engine.ContentType (DataHead d) = ContentBinary ->
  200 <= Engine.Status (DataHead d) <= 999 ->
  (forall b, assertBytes v = inl b ->
             DataRender d w v
             = (RenderData w (Engine.Status (DataHead d)) b, Returned None)) /\
  (forall p, assertBytes v = inr p ->
             snd (DataRender d w v) = Panicked p /\
             body (fst (DataRender d w v)) = body w /\
             (code w = None ->
              code (fst (DataRender d w v)) = Some (Engine.Status (DataHead d)))).
Proof.
  intros Hbin _.
  assert (Hhead :
    Engine.Write
      (if negb (String.eqb (HeaderGet Render.ContentType w) EmptyString)
       then Engine.mkHead (HeaderGet Render.ContentType w) (Engine.Status (DataHead d))
       else DataHead d) w
    = WriteHeader (Engine.Status (DataHead d))
        (if String.eqb (HeaderGet Render.ContentType w) EmptyString
         then HeaderSet Render.ContentType ContentBinary w else w)).
  { destruct (String.eqb_spec (HeaderGet Render.ContentType w) EmptyString)
      as [He | Hne]; cbn [negb].
    - unfold Engine.Write. now rewrite Hbin.
    - unfold Engine.Write. cbn [Engine.ContentType Engine.Status]. f_equal.
      unfold HeaderSet. rewrite (insert_id _ _ _ (HeaderGet_given _ _ Hne)).
      now destruct w. }
  split.
  - intros b Hb. unfold Formats.DataRender, RenderData. now rewrite Hb, Hhead.
  - intros p Hp. unfold Formats.DataRender. rewrite Hp, Hhead. cbn [fst snd].
    split; [reflexivity |]. split.
    + rewrite body_WriteHeader. now destruct (String.eqb _ EmptyString).
    + intros Hc. apply code_WriteHeader_first.
      now destruct (String.eqb _ EmptyString).
Qed.

(** [X15] With a status of a final response (200 to 999), the [JSON] and
    [XML] methods marshal with indentation exactly when the option asks for
    it.  When marshalling fails they answer through
    [http.Error] with status 500 and the error's message, and nothing of the
    prefix; when it succeeds the body grows by the configured prefix followed
    by the marshalled text, the content type is the format's followed by the
    compiled charset, and the given status is sent if none was sent before. *)
Theorem JSON_and_XML_answers (r : Render.Render) (w : ResponseWriter) (status : Z)
        (v : any) :
  200 <= status <= 999 ->
  let json := if IndentJSON (opt r)
              then jsonMarshalIndent v EmptyString "  " else jsonMarshal v in
  let xml := if IndentXML (opt r)
             then xmlMarshalIndent v EmptyString "  " else xmlMarshal v in
  match json with
  | inr err =>
      RenderJSON r w status v = Http.Error w (Tmpl.Error err) 500 /\
      body (RenderJSON r w status v) = body w +:+ Tmpl.Error err +:+ newline
  | inl result =>
      body (RenderJSON r w status v) = body w +:+ PrefixJSON (opt r) +:+ result /\
      header (RenderJSON r w status v)
      = <[ "Content-Type" := ContentJSON +:+ compiledCharset r ]> (header w) /\
      (code w = None -> code (RenderJSON r w status v) = Some status)
  end /\
  match xml with
  | inr err =>
      RenderXML r w status v = Http.Error w (Tmpl.Error err) 500 /\
      body (RenderXML r w status v) = body w +:+ Tmpl.Error err +:+ newline
  | inl result =>
      body (RenderXML r w status v) = body w +:+ PrefixXML (opt r) +:+ result /\
      header (RenderXML r w status v)
      = <[ "Content-Type" := ContentXML +:+ compiledCharset r ]> (header w) /\
      (code w = None -> code (RenderXML r w status v) = Some status)
  end.
Proof.
  intros _ json xml. split.
  - unfold Formats.RenderJSON. fold json. destruct json as [result | err].
    + rewrite body_Write, body_writePrefix, body_WriteHeader.
      rewrite header_Write, header_writePrefix, header_WriteHeader.
      split; [now rewrite append_assoc_go |]. split; [reflexivity |].
      intros Hc. apply code_Write_sent, code_writePrefix_sent, code_WriteHeader_first.
      exact Hc.
    + split; [reflexivity | apply body_Error].
  - unfold Formats.RenderXML. fold xml. destruct xml as [result | err].
    + rewrite body_Write, body_writePrefix, body_WriteHeader.
      rewrite header_Write, header_writePrefix, header_WriteHeader.
      split; [now rewrite append_assoc_go |]. split; [reflexivity |].
      intros Hc. apply code_Write_sent, code_writePrefix_sent, code_WriteHeader_first.
      exact Hc.
    + split; [reflexivity | apply body_Error].
Qed.

End OtherFormats.

Lemma engine_Data_witness :
  let d := mkData (Engine.mkHead ContentBinary 201) in
  DataRender Cases.sample Cases.asBytes d NewRecorder (Cases.Bytes "raw")
  = (RenderData NewRecorder 201 "raw", Returned None) /\
  snd (DataRender Cases.sample Cases.asBytes d NewRecorder Cases.Greeting)
  = Panicked (Errorf "interface conversion: interface {} is not []uint8") /\
  code (fst (DataRender Cases.sample Cases.asBytes d NewRecorder Cases.Greeting))
  = Some 201 /\
  body (fst (DataRender Cases.sample Cases.asBytes d NewRecorder Cases.Greeting))
  = EmptyString.
Proof.
  intros d.
  destruct (engine_Data_agrees_and_panics_after_the_head
              Cases.sample Cases.asBytes d NewRecorder (Cases.Bytes "raw") eq_refl
              ltac:(cbn; lia))
    as (Hbytes & _).
  destruct (engine_Data_agrees_and_panics_after_the_head
              Cases.sample Cases.asBytes d NewRecorder Cases.Greeting eq_refl
              ltac:(cbn; lia))
    as (_ & Hother).
  destruct (Hother _ eq_refl) as (Hpanic & Hbody & Hcode).
  split; [exact (Hbytes _ eq_refl) |]. split; [exact Hpanic |].
  split; [exact (Hcode eq_refl) | exact Hbody].
Defined.

Lemma JSON_and_XML_witness :
  let r := prepareOptions
             (mkRender
                (mkOptions EmptyString EmptyString [] [] (mkDelims EmptyString EmptyString)
                           EmptyString true false "while(1);" EmptyString EmptyString
                           false)
                None EmptyString) in
  body (RenderJSON Cases.sample Cases.marshal Cases.marshalIndent r NewRecorder 200
                   Cases.Greeting)
  = "while(1);{  hello}" /\
  body (RenderXML Cases.sample Cases.marshal Cases.marshalIndent r NewRecorder 200
                  Cases.Greeting)
  = "{hello}" /\
  RenderJSON Cases.sample Cases.marshal Cases.marshalIndent r NewRecorder 200
             Cases.Unsupported
  = Http.Error NewRecorder "unsupported value" 500.
Proof.
  intros r.
  destruct (JSON_and_XML_answers Cases.sample Cases.marshal Cases.marshalIndent
              Cases.marshal Cases.marshalIndent r NewRecorder 200 Cases.Greeting
              ltac:(lia))
    as ((Hjson & _) & (Hxml & _)).
  destruct (JSON_and_XML_answers Cases.sample Cases.marshal Cases.marshalIndent
              Cases.marshal Cases.marshalIndent r NewRecorder 200 Cases.Unsupported
              ltac:(lia))
    as ((Herr & _) & _).
  split; [exact Hjson |]. split; [exact Hxml | exact Herr].
Defined.

(** ** The renderers of [engine.go] beside the renderer's methods *)

Section EngineAgreement.

Variable any : Type.
Variable jsonMarshal : any -> string + error.
Variable jsonMarshalIndent : any -> string -> string -> string + error.
Variable xmlMarshal : any -> string + error.
Variable xmlMarshalIndent : any -> string -> string -> string + error.

Local Abbreviation RenderJSON := (RenderJSON any jsonMarshal jsonMarshalIndent).
Local Abbreviation RenderXML := (RenderXML any xmlMarshal xmlMarshalIndent).
Local Abbreviation JSONRender := (JSONRender any jsonMarshal jsonMarshalIndent).
Local Abbreviation XMLRender := (XMLRender any xmlMarshal xmlMarshalIndent).

(** [X16] Given the head, the indentation and the prefix the renderer would
    use, the [JSON], [XML] and [HTML] renderers of [engine.go] leave the
    response that the renderer's methods leave whenever marshalling or
    execution succeeds.  When it fails they return the error and leave the
    response untouched, where the methods answer through [http.Error]. *)
Theorem engine_renderers_agree_on_success
        (r : Render.Render) (w : ResponseWriter) (status : Z) (v : any) :
  let j := mkJSON (Engine.mkHead (ContentJSON +:+ compiledCharset r) status)
                  (IndentJSON (opt r)) (PrefixJSON (opt r)) in
  let x := mkXML (Engine.mkHead (ContentXML +:+ compiledCharset r) status)
                 (IndentXML (opt r)) (PrefixXML (opt r)) in
  match JSONRender j w v with
  | (w', None) => RenderJSON r w status v = w'
  | (w', Some err) =>
      w' = w /\ RenderJSON r w status v = Http.Error w (Tmpl.Error err) 500
  end /\
  match XMLRender x w v with
  | (w', None) => RenderXML r w status v = w'
  | (w', Some err) =>
      w' = w /\ RenderXML r w status v = Http.Error w (Tmpl.Error err) 500
  end /\
  forall fuel name binding t,
    templates r = Some t ->
    let h := Engine.mkHTML
               (Engine.mkHead (HTMLContentType (opt r) +:+ compiledCharset r) status)
               name t in
    match Engine.Render fuel h w binding with
    | None => render fuel r w status name binding = None
    | Some (w', None) => render fuel r w status name binding = Some (r, w', None)
    | Some (w', Some err) =>
        w' = w /\
        render fuel r w status name binding
        = Some (r, Http.Error w (Tmpl.Error err) StatusInternalServerError, None)
    end.
Proof.
  intros j x. split; [| split].
  - unfold Formats.JSONRender, Formats.RenderJSON, j. cbn [JSONIndent JSONPrefix JSONHead].
    destruct (if IndentJSON (opt r) then _ else _) as [result | err];
      [reflexivity | now split].
  - unfold Formats.XMLRender, Formats.RenderXML, x. cbn [XMLIndent XMLPrefix XMLHead].
    destruct (if IndentXML (opt r) then _ else _) as [result | err];
      [reflexivity | now split].
  - intros fuel name binding t Ht h.
    unfold Engine.Render, render, execute, h. rewrite Ht.
    cbn [Engine.Templates Engine.Name Engine.HTMLHead].
    destruct (ExecuteTemplate fuel t name binding) as [[out [err |]] |];
      [now split | reflexivity | reflexivity].
Qed.

End EngineAgreement.

Lemma engine_renderers_witness :
  let r := View.constructed
             (New "/" Helpers.helperFuncs Fixtures.pages
                  (Fixtures.options "templates" EmptyString [] [] false)) in
  let t := default (Tmpl.New EmptyString) (templates r) in
  let sent := Write "[]" (WriteHeader 200
                (HeaderSet "Content-Type" "text/html; charset=UTF-8" NewRecorder)) in
  Engine.Render 1 (Engine.mkHTML (Engine.mkHead "text/html; charset=UTF-8" 200)
                                 "current" t) NewRecorder (VString "x")
  = Some (sent, None) /\
  render 1 r NewRecorder 200 "current" (VString "x") = Some (r, sent, None).
Proof.
  intros r t sent.
  destruct (engine_renderers_agree_on_success
              Cases.sample Cases.marshal Cases.marshalIndent
              Cases.marshal Cases.marshalIndent r NewRecorder 200 Cases.Greeting)
    as (_ & _ & Hhtml).
  pose proof (Hhtml 1%nat "current" (VString "x") t ltac:(vm_compute; reflexivity))
    as Hc.
  cbv zeta in Hc.
  match type of Hc with
  | match ?e with _ => _ end =>
      assert (Heng : e = Some (sent, None)) by (vm_compute; reflexivity);
      rewrite Heng in Hc
  end.
  split; [vm_compute; reflexivity | exact Hc].
Defined.

(** ** A page that calls [yield] under a layout *)

Lemma execNodes_reentry_diverges exec (fm : FuncMap) u data (pre rest : tree) buf
      page binding :
  Forall (fun n => forall fn, n <> NCall fn) pre ->
  fm !! "yield" = Some (FnExecute page binding) ->
  exec page binding = None ->
  execNodes (callFunc exec) fm u data (pre ++ NCall "yield" :: rest)%list buf = None.
Proof.
  intros Hpre Hy Hexec.
  destruct (execNodes_before_call (callFunc exec) fm u data pre
              (NCall "yield" :: rest) buf Hpre) as (buf' & ->).
  cbn [execNodes]. rewrite Hy. cbn [callFunc]. now rewrite Hexec.
Qed.

(** [X17] When the requested page itself reaches a call of [yield] (after
    text and [{{.}}] only) and is rendered under a layout that reaches its
    call of [yield], the closure bound by [addYield] executes the page, which
    calls the closure again: the call does not return within any bound on the
    nesting. *)
Theorem page_calling_yield_under_layout_never_returns
        (Separator : ascii) (helperFuncs : FuncMap)
        (fs : FileSystem) (r : Render.Render) (t : Template) (w : ResponseWriter)
        (status : Z) (name : string) (binding : value) (htmlOpt : list HTMLOptions)
        (pre rest preL restL : tree) :
  IsDevelopment (opt r) = false ->
  templates r = Some t ->
  let layout := HTMLLayout (prepareHTMLOptions r htmlOpt) in
  layout <> EmptyString ->
  Lookup t layout = Some (Some (preL ++ NCall "yield" :: restL)%list) ->
  Lookup t name = Some (Some (pre ++ NCall "yield" :: rest)%list) ->
  Forall (fun n => forall fn, n <> NCall fn) preL ->
  Forall (fun n => forall fn, n <> NCall fn) pre ->
  forall fuel, HTML Separator helperFuncs fuel fs r w status name binding htmlOpt = None.
Proof.
  intros Hdev Ht layout Hl HL Hpage HpreL Hpre fuel.
  set (t' := Tmpl.Funcs (<[ "yield" := FnExecute name binding ]>
                         (<[ "current" := FnReturn (VString name) None ]> ∅)) t).
  assert (Hy : funcs t' !! "yield" = Some (FnExecute name binding)).
  { unfold t'. rewrite lookup_Funcs. now rewrite lookup_insert_eq. }
  assert (Hinner : forall k, ExecuteTemplate k t' name binding = None).
  { induction k as [| k IH]; [reflexivity |].
    cbn [ExecuteTemplate]. unfold Lookup in Hpage.
    change (tmpls t') with (tmpls t). rewrite Hpage.
    now apply (execNodes_reentry_diverges _ _ _ _ pre rest _ name binding). }
  rewrite HTML_staged.
  assert (Hs : View.staged Separator helperFuncs fs r name binding htmlOpt
               = (setTemplates (Some t') r, None)).
  { unfold View.staged. rewrite Hdev. fold layout. rewrite (layout_assigned _ Hl).
    unfold addYield. now rewrite Ht. }
  rewrite Hs. unfold View.target. fold layout. rewrite (layout_assigned _ Hl).
  unfold render, execute. cbn [templates setTemplates].
  destruct fuel as [| k]; [reflexivity |].
  cbn [ExecuteTemplate]. unfold Lookup in HL.
  change (tmpls t') with (tmpls t). rewrite HL.
  rewrite (execNodes_reentry_diverges _ _ _ _ preL restL _ name binding HpreL Hy
             (Hinner k)).
  reflexivity.
Qed.

Lemma page_calling_yield_witness :
  let r := View.constructed
             (New "/" Helpers.helperFuncs Cases.leaky
                  (Fixtures.options "templates" "layout" [] [] false)) in
  HTML "/" Helpers.helperFuncs 1000 Cases.leaky r NewRecorder 200 "other"
       (VString "gophers") [] = None.
Proof.
  intros r.
  pose (t := default (Tmpl.New EmptyString) (templates r)).
  refine (page_calling_yield_under_layout_never_returns
           "/" Helpers.helperFuncs Cases.leaky r t NewRecorder 200 "other"
           (VString "gophers") []
           [NText "other: "] [NText " ("; NCall "current"; NText ")"]
           [NText "<h1>"] [NText "</h1>"] _ _ _ _ _ _ _ 1000%nat).
  - reflexivity.
  - vm_compute. reflexivity.
  - vm_compute. discriminate.
  - vm_compute. reflexivity.
  - vm_compute. reflexivity.
  - repeat constructor; discriminate.
  - repeat constructor; discriminate.
Defined.
